(** * Sandboxed task dispatch: the security gate of [tasksB.py] and the
      dispatcher of [server.py]

    A shallow embedding of the Python sources

      - [tasksB.py]: [validate_path], the [security_check] decorator, the
        decorated handlers [fetch_api_data] and [transcribe_audio], and the
        Flask endpoint [filter_csv];
      - [server.py]: the FastAPI endpoints [run_task] and [read_file];
      - [evaluateB.py]: the self-test [evaluate_B8].

    Python strings are modelled as [string] (a character is a code point
    below 256), Python values as the inductive [pyval], exceptions as the
    inductive [exn], and a call that may raise as an [outcome].  Effects
    are explicit: a handler is a function from a [World] to an outcome
    and a new [World].  What the sources call in third-party libraries is
    gathered in interfaces: [HandlerBodies] (requests, openai and the
    file writes of the handlers), [TasksA] (the absent module [tasksA]),
    [Pandas.Library] (pandas, and [re] beyond the fragment of [Regex])
    and [Libraries] (the calls of the handlers one by one).  The
    directory operations of [os] that [ensure_data_dir] and
    [fetch_api_data] use are modelled over the store of the [World] in
    [Os]; the remaining handlers of [tasksB.py] ([git_operations],
    [run_sql_query], [scrape_website], [process_image],
    [convert_markdown]) are embedded over [Libraries]. *)

From Stdlib Require Import ZArith String Ascii List Bool Lia.
From Stdlib Require Import DecimalString.
From stdpp Require Import gmap strings.
Import ListNotations.

Set Warnings "-register-all".
Local Open Scope Z_scope.

(* ===================================================================== *)
(** * Python strings *)
(* ===================================================================== *)

Module PyStr.

(** [needle in hay] on [str]: is [needle] a substring of [hay]. *)
Fixpoint contains (needle hay : string) : bool :=
  String.prefix needle hay ||
  match hay with
  | EmptyString => false
  | String _ rest => contains needle rest
  end.

(** [s.startswith(p)] *)
Definition startswith (s p : string) : bool := String.prefix p s.

(** [s.endswith(p)] *)
Fixpoint endswith (s p : string) : bool :=
  String.eqb s p ||
  match s with
  | EmptyString => false
  | String _ rest => endswith rest p
  end.

(** [s.split(sep)] for a one-character separator: the fields between
    the separators, empty fields included; [''.split('/') = ['']]. *)
Fixpoint split (sep : ascii) (s : string) : list string :=
  match s with
  | EmptyString => [EmptyString]
  | String c rest =>
      if Ascii.eqb c sep then EmptyString :: split sep rest
      else match split sep rest with
           | [] => [String c EmptyString]
           | field :: fields => String c field :: fields
           end
  end.

(** [sep.join(fields)] *)
Definition join (sep : string) (fields : list string) : string :=
  String.concat sep fields.

(** [ch * n] *)
Fixpoint repeat (ch : string) (n : nat) : string :=
  match n with
  | O => EmptyString
  | S k => ch +:+ repeat ch k
  end.

(** The scan of [s.replace(old, new)] for a non-empty [old]: [skip] counts
    the characters of a match of [old] that are still to be dropped. *)
Fixpoint replace_scan (old new s : string) (skip : nat) : string :=
  match s with
  | EmptyString => EmptyString
  | String c rest =>
      match skip with
      | S k => replace_scan old new rest k
      | O =>
          if String.prefix old s
          then new +:+ replace_scan old new rest (Nat.pred (String.length old))
          else String c (replace_scan old new rest O)
      end
  end.

(** [s.replace('', new)]: [new] before every character and at the end. *)
Fixpoint intersperse (new s : string) : string :=
  match s with
  | EmptyString => new
  | String c rest => new +:+ String c (intersperse new rest)
  end.

(** [s.replace(old, new)]: every non-overlapping occurrence of [old],
    found from the left, is replaced by [new]. *)
Definition replace (old new s : string) : string :=
  match old with
  | EmptyString => intersperse new s
  | _ => replace_scan old new s O
  end.

(** [ch.isspace()] for the code points below 256. *)
Definition isspace (c : ascii) : bool :=
  let n := nat_of_ascii c in
  ((9 <=? n) && (n <=? 13) || (28 <=? n) && (n <=? 32)
   || (n =? 133) || (n =? 160))%nat.

Fixpoint lstrip (s : string) : string :=
  match s with
  | EmptyString => EmptyString
  | String c rest => if isspace c then lstrip rest else s
  end.

Fixpoint rstrip (s : string) : string :=
  match s with
  | EmptyString => EmptyString
  | String c rest =>
      match rstrip rest with
      | EmptyString => if isspace c then EmptyString else String c EmptyString
      | kept => String c kept
      end
  end.

(** [s.strip()] *)
Definition strip (s : string) : string := rstrip (lstrip s).

(** [str(n)] for an [int] *)
Definition of_Z (n : Z) : string := NilZero.string_of_int (Z.to_int n).

End PyStr.

(* ===================================================================== *)
(** * Python values, exceptions and outcomes *)
(* ===================================================================== *)

(** The values that reach the handlers as arguments and come back as
    results. *)
Inductive pyval : Type :=
| PNone
| PBool (b : bool)
| PInt (n : Z)
| PStr (s : string)
| PTuple (items : list pyval)
| PList (items : list pyval).

(** The exception classes the sources raise or catch.  [BaseOnly] stands
    for the classes outside [Exception] ([KeyboardInterrupt],
    [SystemExit], [GeneratorExit]); [OtherError] for any further subclass
    of [Exception], by class name. *)
Inductive exn : Type :=
| PermissionError (msg : string)
| FileNotFoundError (msg : string)
| IsADirectoryError (msg : string)
| NotImplementedError (msg : string)
| NameError (msg : string)
| TypeError (msg : string)
| KeyError (msg : string)
| AttributeError (msg : string)
| HTTPException (status_code : Z) (detail : string)
| OtherError (cls msg : string)
| BaseOnly (cls msg : string).

(** [isinstance(e, Exception)] *)
Definition is_Exception (e : exn) : bool :=
  match e with
  | BaseOnly _ _ => false
  | _ => true
  end.

(** [isinstance(e, FileNotFoundError)] *)
Definition is_FileNotFoundError (e : exn) : bool :=
  match e with
  | FileNotFoundError _ => true
  | _ => false
  end.

(** [isinstance(e, NotImplementedError)] *)
Definition is_NotImplementedError (e : exn) : bool :=
  match e with
  | NotImplementedError _ => true
  | _ => false
  end.

(** [str(e)].  Starlette's [HTTPException] defines [__str__] as its
    status code, a colon and its detail; [KeyError] prints the [repr] of
    the key, which [msg] holds. *)
Definition exn_str (e : exn) : string :=
  match e with
  | PermissionError m | FileNotFoundError m | IsADirectoryError m
  | NotImplementedError m | NameError m | TypeError m | KeyError m
  | AttributeError m => m
  | HTTPException code detail => PyStr.of_Z code +:+ ": " +:+ detail
  | OtherError _ m | BaseOnly _ m => m
  end.

(** The outcome of a call: it returns a value or raises. *)
Inductive outcome (A : Type) : Type :=
| Return (v : A)
| Raise (e : exn).
Arguments Return {A} v.
Arguments Raise {A} e.

(** Files as [open] sees them, by the path string handed to [open]: a
    file of text, a directory, a file that may not be opened, a file
    whose bytes do not decode as text ([complaint] is the text of the
    [UnicodeDecodeError]). *)
Inductive file_node : Type :=
| RegularFile (content : string)
| Directory
| Unreadable
| Undecodable (complaint : string).

(** The state of the process and of its surroundings.  [cwd] is what
    [os.getcwd()] returns, [None] when it raises (the directory was
    removed); [stdout] collects what [print] wrote, [net_log] the URLs that
    were requested, [call_log] the handler bodies that were entered. *)
Record World : Type := mkWorld {
  cwd : option string;
  files : gmap string file_node;
  stdout : list string;
  net_log : list string;
  call_log : list string
}.

(** A computation with effects on the [World]. *)
Definition M (A : Type) : Type := World -> outcome A * World.

Definition ret {A} (v : A) : M A := fun w => (Return v, w).
Definition raise {A} (e : exn) : M A := fun w => (Raise e, w).
Definition bind {A B} (m : M A) (k : A -> M B) : M B :=
  fun w => match m w with
           | (Return v, w') => k v w'
           | (Raise e, w') => (Raise e, w')
           end.

(** [try: m  except Exception as e: h(e)] *)
Definition try_except_Exception {A} (m : M A) (h : exn -> M A) : M A :=
  fun w => match m w with
           | (Raise e, w') => if is_Exception e then h e w' else (Raise e, w')
           | r => r
           end.

(** [print(line)] *)
Definition print (line : string) : M unit :=
  fun w => (Return tt,
            mkWorld (cwd w) (files w) (stdout w ++ [line]) (net_log w) (call_log w)).

Declare Scope py_scope.
Delimit Scope py_scope with py.
Notation "'let!' x ':=' m 'in' k" := (bind m (fun x => k))
  (at level 10, x pattern, m at level 100, k at level 200) : py_scope.
Notation "'run!' m 'in' k" := (bind m (fun _ => k))
  (at level 10, m at level 100, k at level 200) : py_scope.

(* ===================================================================== *)
(** * [posixpath]: [isabs], [join], [normpath], [abspath] *)
(* ===================================================================== *)

Module PosixPath.

(** [os.path.sep] *)
Definition sep : string := "/".
Definition sep_char : ascii := "/"%char.

Definition isabs (p : string) : bool := PyStr.startswith p sep.

(** [os.path.join(a, b)] *)
Definition join (a b : string) : string :=
  if PyStr.startswith b sep then b
  else if String.eqb a EmptyString || PyStr.endswith a sep then a +:+ b
  else a +:+ sep +:+ b.

(** The number of leading slashes [normpath] keeps: POSIX allows one or
    two, three or more count as one. *)
Definition initial_slashes (p : string) : nat :=
  if PyStr.startswith p sep then
    if PyStr.startswith p (PyStr.repeat sep 2)
       && negb (PyStr.startswith p (PyStr.repeat sep 3))
    then 2%nat else 1%nat
  else 0%nat.

(** One round of the loop of [normpath] over the components. *)
Definition normpath_step (slashes : nat) (new_comps : list string)
                         (comp : string) : list string :=
  if String.eqb comp "" || String.eqb comp "." then new_comps
  else if negb (String.eqb comp "..")
          || (Nat.eqb slashes 0 && Nat.eqb (List.length new_comps) 0)
          || (negb (Nat.eqb (List.length new_comps) 0)
              && String.eqb (List.last new_comps "") "..")
       then new_comps ++ [comp]
       else if negb (Nat.eqb (List.length new_comps) 0)
            then List.removelast new_comps
            else new_comps.

(** The loop of [normpath]: the components that are kept. *)
Definition normpath_comps (p : string) : list string :=
  List.fold_left (normpath_step (initial_slashes p)) (PyStr.split sep_char p) [].

Definition normpath (p : string) : string :=
  if String.eqb p "" then "."
  else
    let slashes := initial_slashes p in
    let comps := normpath_comps p in
    let path := PyStr.join sep comps in
    let path := PyStr.repeat sep slashes +:+ path in
    if String.eqb path "" then "." else path.

(** [os.path.abspath(p)]: a relative path is joined to [os.getcwd()],
    which may raise. *)
Definition abspath (p : string) (w : World) : outcome string :=
  if isabs p then Return (normpath p)
  else match cwd w with
       | Some d => Return (normpath (join d p))
       | None => Raise (FileNotFoundError "[Errno 2] No such file or directory")
       end.

End PosixPath.

(* ===================================================================== *)
(** * [tasksB.py]: the sandbox predicate and the security gate *)
(* ===================================================================== *)

(** The [try] block of [validate_path]. *)
Definition validate_path_try (filepath : string) (w : World) : outcome bool :=
  match PosixPath.abspath filepath w with
  | Raise e => Raise e
  | Return abs_path =>
      match PosixPath.abspath "/data" w with
      | Raise e => Raise e
      | Return data_dir => Return (PyStr.startswith abs_path data_dir)
      end
  end.

(** [validate_path(filepath)]: the [try] block, and [False] for whatever
    it raises ([abspath] raises only [OSError]s, which [except Exception]
    catches). *)
Definition validate_path (filepath : string) (w : World) : bool :=
  match validate_path_try filepath w with
  | Return inside => inside
  | Raise _ => false
  end.

(** A Python function as the gate sees it: its [__name__], and its call
    on positional arguments and keyword arguments (in call order). *)
Record pyfunc : Type := mkFunc {
  fn_name : string;
  fn_call : list pyval -> list (string * pyval) -> M pyval
}.

(** [f"Access denied: {arg} is outside /data directory"] *)
Definition access_denied (arg : string) : string :=
  "Access denied: " +:+ arg +:+ " is outside /data directory".

(** The [for] loop of [wrapper] over [args + tuple(kwargs.values())]: it
    raises at the first string argument that holds [os.path.sep] and
    fails [validate_path]. *)
Fixpoint check_arguments (all_args : list pyval) : M unit :=
  match all_args with
  | [] => ret tt
  | arg :: rest =>
      fun w =>
        match arg with
        | PStr s =>
            if PyStr.contains PosixPath.sep s then
              if negb (validate_path s w)
              then raise (PermissionError (access_denied s)) w
              else check_arguments rest w
            else check_arguments rest w
        | _ => check_arguments rest w
        end
  end.

(** [security_check(func)]: the [wrapper]; [functools.wraps] gives it the
    name of [func]. *)
Definition security_check (func : pyfunc) : pyfunc :=
  {| fn_name := fn_name func;
     fn_call := fun args kwargs =>
       (run! check_arguments (args ++ map snd kwargs) in
        fn_call func args kwargs)%py |}.

(** Binding the arguments of a call to the parameters of a [def] whose
    parameters are all positional-or-keyword and have no default: [None]
    where Python raises [TypeError] (too many positional arguments, a
    parameter given twice, an unexpected keyword, a missing argument). *)
Definition kw_lookup (name : string) (kwargs : list (string * pyval))
  : option pyval :=
  option_map snd (List.find (fun kv => String.eqb (fst kv) name) kwargs).

Definition kw_remove (name : string) (kwargs : list (string * pyval))
  : list (string * pyval) :=
  List.filter (fun kv => negb (String.eqb (fst kv) name)) kwargs.

Fixpoint bind_params (params : list string) (args : list pyval)
                     (kwargs : list (string * pyval)) : option (list pyval) :=
  match params, args with
  | [], [] => match kwargs with [] => Some [] | _ :: _ => None end
  | [], _ :: _ => None
  | name :: params', a :: args' =>
      match kw_lookup name kwargs with
      | Some _ => None
      | None => option_map (cons a) (bind_params params' args' kwargs)
      end
  | name :: params', [] =>
      match kw_lookup name kwargs with
      | Some v => option_map (cons v) (bind_params params' [] (kw_remove name kwargs))
      | None => None
      end
  end.

(** What the handler bodies do inside their [try] blocks through
    third-party libraries and the file system. *)
Class HandlerBodies : Type := {
  (** [requests.get(url, timeout=30)], [raise_for_status()],
      [os.makedirs(dirname(save_path))], [open(save_path, 'w')] and
      [write] *)
  fetch_and_save : pyval -> pyval -> M unit;
  (** [import openai], [open(audio_path, 'rb')],
      [openai.Audio.transcribe], [open(output_path, 'w')] and [write] *)
  transcribe_and_save : pyval -> pyval -> M unit
}.

Section Handlers.
Context {bodies : HandlerBodies}.

(** The undecorated [fetch_api_data(url, save_path)]. *)
Definition fetch_api_data_def : pyfunc :=
  {| fn_name := "fetch_api_data";
     fn_call := fun args kwargs =>
       match bind_params ["url"; "save_path"] args kwargs with
       | Some [url; save_path] =>
           try_except_Exception
             (run! fetch_and_save url save_path in ret (PBool true))%py
             (fun e =>
                run! print ("Error fetching API data: " +:+ exn_str e) in
                ret (PBool false))%py
       | _ => raise (TypeError "fetch_api_data(): arguments do not match the parameters")
       end |}.

(** [@security_check def fetch_api_data(...)] *)
Definition fetch_api_data : pyfunc := security_check fetch_api_data_def.

(** The undecorated [transcribe_audio(audio_path, output_path)]. *)
Definition transcribe_audio_def : pyfunc :=
  {| fn_name := "transcribe_audio";
     fn_call := fun args kwargs =>
       match bind_params ["audio_path"; "output_path"] args kwargs with
       | Some [audio_path; output_path] =>
           try_except_Exception
             (run! transcribe_and_save audio_path output_path in
              ret (PBool true))%py
             (fun e =>
                run! print ("Error transcribing audio: " +:+ exn_str e) in
                ret (PBool false))%py
       | _ => raise (TypeError "transcribe_audio(): arguments do not match the parameters")
       end |}.

(** [@security_check def transcribe_audio(...)] *)
Definition transcribe_audio : pyfunc := security_check transcribe_audio_def.

End Handlers.

(** An object of a module namespace: a function, or anything else (a
    module, a class, the Flask application). *)
Inductive pyobj : Type :=
| ObjFunc (f : pyfunc)
| ObjOther.

(** Calling the global [name] with no argument: [NameError] when the
    namespace does not bind it. *)
Definition call_global (globals : gmap string pyobj) (name : string) : M pyval :=
  match globals !! name with
  | Some (ObjFunc f) => fn_call f [] []
  | Some ObjOther => raise (TypeError "object is not callable")
  | None => raise (NameError ("name '" +:+ name +:+ "' is not defined"))
  end.

(** [evaluate_B8()] of [evaluateB.py]: [True] exactly when [B8()] raises
    [NotImplementedError]. *)
Definition evaluate_B8 (globals : gmap string pyobj) : M bool :=
  try_except_Exception
    (fun w =>
       match call_global globals "B8" w with
       | (Return _, w') => (Return false, w')
       | (Raise e, w') =>
           if is_NotImplementedError e then (Return true, w')
           else (Raise e, w')
       end)
    (fun e => run! print ("B8 error: " +:+ exn_str e) in ret false)%py.

(** The names that [from tasksB import *] binds in [evaluateB.py]: the
    public imports and definitions of [tasksB.py], which has no
    [__all__].  The handlers that are not modelled stand as [ObjOther]. *)
Definition tasksB_namespace {bodies : HandlerBodies} : gmap string pyobj :=
  list_to_map
    [ ("os", ObjOther); ("pathlib", ObjOther); ("Optional", ObjOther);
      ("Union", ObjOther); ("List", ObjOther); ("Dict", ObjOther);
      ("Any", ObjOther); ("wraps", ObjOther);
      ("validate_path", ObjOther); ("security_check", ObjOther);
      ("fetch_api_data", ObjFunc fetch_api_data);
      ("git_operations", ObjOther); ("run_sql_query", ObjOther);
      ("scrape_website", ObjOther); ("process_image", ObjOther);
      ("transcribe_audio", ObjFunc transcribe_audio);
      ("convert_markdown", ObjOther); ("Flask", ObjOther);
      ("request", ObjOther); ("jsonify", ObjOther); ("pd", ObjOther);
      ("app", ObjOther); ("filter_csv", ObjOther) ].

(** The globals of [evaluateB.py] when [evaluate_B8] runs: its own
    imports and definitions over the names of [tasksB]. *)
Definition evaluateB_globals {bodies : HandlerBodies} : gmap string pyobj :=
  list_to_map
    [ ("os", ObjOther); ("json", ObjOther); ("requests", ObjOther);
      ("Path", ObjOther); ("setup_test_data", ObjOther);
      ("evaluate_B3", ObjOther); ("evaluate_B4", ObjOther);
      ("evaluate_B5", ObjOther); ("evaluate_B6", ObjOther);
      ("evaluate_B7", ObjOther); ("evaluate_B8", ObjOther);
      ("evaluate_B9", ObjOther); ("evaluate_B10", ObjOther);
      ("main", ObjOther) ]
  ∪ tasksB_namespace.

(* ===================================================================== *)
(** * [server.py]: the dispatcher [run_task] and the reader [read_file] *)
(* ===================================================================== *)

(** The operations of the absent module [tasksA]. *)
Inductive task_name : Type :=
| A1 | A2 | A3 | A4 | A5 | A6 | A7 | A8 | A9 | A10.

(** [tasksA.A1()] ... [tasksA.A10()]: the module is not part of the
    sources at hand, its functions are taken as they come. *)
Class TasksA : Type := {
  tasksA_call : task_name -> M pyval
}.

(** A JSON object as the endpoints return it: the keys in order. *)
Definition pydict : Type := list (string * pyval).


Section Dispatcher.
Context {tasks : TasksA}.

(** [{"status": "success"}] after [tasksA.An()] *)
Definition run_and_report (t : task_name) : M pydict :=
  (run! tasksA_call t in ret [("status", PStr "success")])%py.

(** The [try] block of [run_task]; [task] is the query parameter, absent
    when [None]. *)
Definition run_task_try (task : option string) : M pydict :=
  let task := match task with Some t => t | None => "" end in
  let task := PyStr.strip task in
  if PyStr.contains "Install `uv`" task then
    (let! r := tasksA_call A1 in
     ret [("status", PStr "success"); ("result", r)])%py
  else if PyStr.contains "format.md" task then
    run_and_report A2
  else if PyStr.contains "dates.txt" task
          && PyStr.contains "dates-wednesdays.txt" task then
    run_and_report A3
  else if PyStr.contains "contacts.json" task
          && PyStr.contains "contacts-sorted.json" task then
    run_and_report A4
  else if PyStr.contains "logs-recent.txt" task then
    run_and_report A5
  else if PyStr.contains "docs/index.json" task then
    run_and_report A6
  else if PyStr.contains "email.txt" task
          && PyStr.contains "email-sender.txt" task then
    run_and_report A7
  else if PyStr.contains "credit_card.png" task
          && PyStr.contains "credit-card.txt" task then
    run_and_report A8
  else if PyStr.contains "comments.txt" task
          && PyStr.contains "comments-similar.txt" task then
    run_and_report A9
  else if PyStr.contains "ticket-sales.db" task
          && PyStr.contains "ticket-sales-gold.txt" task then
    run_and_report A10
  else
    raise (HTTPException 400 "Unknown task").

(** [run_task(request)] *)
Definition run_task (task : option string) : M pydict :=
  try_except_Exception (run_task_try task)
    (fun e => raise (HTTPException 400 (exn_str e))).

End Dispatcher.

(* ===================================================================== *)
(** * [server.py]: [read_file] *)
(* ===================================================================== *)

(** [repr] of a [str] whose characters are code points below 256: the
    form in which a [KeyError] shows its key and an [OSError] its file
    name. *)
Module PyRepr.

Definition single_quote : ascii := ascii_of_nat 39.
Definition double_quote : ascii := ascii_of_nat 34.
Definition backslash : ascii := ascii_of_nat 92.

Definition hex_digit (n : nat) : ascii :=
  if (n <? 10)%nat then ascii_of_nat (48 + n) else ascii_of_nat (87 + n).

(** [\xNN] *)
Definition hex_escape (n : nat) : string :=
  String backslash
    (String "x" (String (hex_digit (n / 16)) (String (hex_digit (n mod 16)) EmptyString))).

(** [ch.isprintable()] for the code points from 128 to 255. *)
Definition printable_high (n : nat) : bool :=
  ((161 <=? n) && (n <=? 172) || (174 <=? n) && (n <=? 255))%nat.

Definition escape_char (quote c : ascii) : string :=
  let n := nat_of_ascii c in
  if Ascii.eqb c quote || Ascii.eqb c backslash then String backslash (String c EmptyString)
  else if (n =? 9)%nat then String backslash "t"
  else if (n =? 10)%nat then String backslash "n"
  else if (n =? 13)%nat then String backslash "r"
  else if ((n <? 32) || (n =? 127))%nat then hex_escape n
  else if (n <? 127)%nat then String c EmptyString
  else if printable_high n then String c EmptyString
  else hex_escape n.

Fixpoint escape (quote : ascii) (s : string) : string :=
  match s with
  | EmptyString => EmptyString
  | String c rest => escape_char quote c +:+ escape quote rest
  end.

(** The quote [repr] encloses the text in: the double quote when the text
    holds a single quote and no double quote, the single quote
    otherwise. *)
Definition quote_for (s : string) : ascii :=
  if PyStr.contains (String single_quote EmptyString) s
     && negb (PyStr.contains (String double_quote EmptyString) s)
  then double_quote else single_quote.

Definition repr (s : string) : string :=
  let q := quote_for s in
  String q (escape q s +:+ String q EmptyString).

End PyRepr.

(** The path holds a NUL character. *)
Definition has_nul (path : string) : bool :=
  PyStr.contains (String (ascii_of_nat 0) EmptyString) path.

(** The node is a file, not a directory. *)
Definition is_file_node (node : option file_node) : bool :=
  match node with
  | Some (RegularFile _) | Some Unreadable | Some (Undecodable _) => true
  | Some Directory | None => false
  end.

(** Some proper prefix of the path, up to a separator, names a file:
    [seen] is the part of the path already walked. *)
Fixpoint below_file_from (store : gmap string file_node) (seen rest : string) : bool :=
  match rest with
  | EmptyString => false
  | String c rest' =>
      (Ascii.eqb c "/" && negb (String.eqb seen "") && is_file_node (store !! seen))
      || below_file_from store (seen +:+ String c EmptyString) rest'
  end.

Definition below_file (store : gmap string file_node) (path : string) : bool :=
  below_file_from store EmptyString path.

(** The path is relative and the working directory is gone. *)
Definition unreachable (path : string) (w : World) : bool :=
  negb (PosixPath.isabs path) &&
  match cwd w with
  | Some _ => false
  | None => true
  end.

(** [open(path, "r")] followed by [read()]: the file system is keyed by
    the path string as it is handed to [open].  A NUL in the path is
    refused before the system is asked; a path below a file is not a
    directory; the rest is decided by what the store holds at the path. *)
Definition open_read (path : string) : M string :=
  fun w =>
    if has_nul path then
      (Raise (OtherError "ValueError" "embedded null byte"), w)
    else if String.eqb path "" || unreachable path w then
      (Raise (FileNotFoundError
                ("[Errno 2] No such file or directory: " +:+ PyRepr.repr path)), w)
    else if below_file (files w) path then
      (Raise (OtherError "NotADirectoryError"
                ("[Errno 20] Not a directory: " +:+ PyRepr.repr path)), w)
    else
      match files w !! path with
      | Some (RegularFile content) => (Return content, w)
      | Some Directory =>
          (Raise (IsADirectoryError ("[Errno 21] Is a directory: " +:+ PyRepr.repr path)), w)
      | Some Unreadable =>
          (Raise (PermissionError ("[Errno 13] Permission denied: " +:+ PyRepr.repr path)), w)
      | Some (Undecodable complaint) =>
          (Raise (OtherError "UnicodeDecodeError" complaint), w)
      | None =>
          (Raise (FileNotFoundError
                    ("[Errno 2] No such file or directory: " +:+ PyRepr.repr path)), w)
      end.

(** [Response(content=..., media_type=...)], status 200. *)
Record response : Type := mkResponse {
  content : string;
  media_type : string
}.

(** [read_file(path)]: the handler of [except FileNotFoundError] comes
    before the one of [except Exception]. *)
Definition read_file (path : string) : M response :=
  fun w =>
    let relative_path := PyStr.replace "/data/" "data/" path in
    match open_read relative_path w with
    | (Return text, w') => (Return (mkResponse text "text/plain"), w')
    | (Raise e, w') =>
        if is_FileNotFoundError e
        then (Raise (HTTPException 404 ("File not found: " +:+ path)), w')
        else if is_Exception e
        then (Raise (HTTPException 500 (exn_str e)), w')
        else (Raise e, w')
    end.

(** The specification's resolution, to compare [run_task] with: an
    operation and the markers its description must all hold; the specs are
    tried in registration order and the first full match wins. *)
Record OperationSpec : Type := mkSpec {
  op_markers : list string;
  op_task : task_name
}.

Definition registry : list OperationSpec :=
  [ mkSpec ["Install `uv`"] A1;
    mkSpec ["format.md"] A2;
    mkSpec ["dates.txt"; "dates-wednesdays.txt"] A3;
    mkSpec ["contacts.json"; "contacts-sorted.json"] A4;
    mkSpec ["logs-recent.txt"] A5;
    mkSpec ["docs/index.json"] A6;
    mkSpec ["email.txt"; "email-sender.txt"] A7;
    mkSpec ["credit_card.png"; "credit-card.txt"] A8;
    mkSpec ["comments.txt"; "comments-similar.txt"] A9;
    mkSpec ["ticket-sales.db"; "ticket-sales-gold.txt"] A10 ].

Definition spec_matches (description : string) (spec : OperationSpec) : bool :=
  List.forallb (fun marker => PyStr.contains marker description) (op_markers spec).

Definition resolve (reg : list OperationSpec) (description : string)
  : option OperationSpec :=
  List.find (spec_matches description) reg.

(** What the dispatcher does with the outcome of the resolution. *)
Definition dispatch_resolved {tasks : TasksA} (r : option OperationSpec) : M pydict :=
  match r with
  | None => raise (HTTPException 400 "Unknown task")
  | Some spec =>
      match op_task spec with
      | A1 => (let! r := tasksA_call A1 in
               ret [("status", PStr "success"); ("result", r)])%py
      | t => run_and_report t
      end
  end.

(* ===================================================================== *)
(** * [tasksB.py]: the endpoint [filter_csv] *)
(* ===================================================================== *)

(** The fragment of Python's regular expressions made of ordinary
    characters and of [.], which stands for any character but a newline. *)
Module Regex.

(** The characters with a meaning of their own in a pattern. *)
Definition special_chars : string := ".^$*+?{}[]\|()".

Definition is_special (c : ascii) : bool :=
  PyStr.contains (String c EmptyString) special_chars.

Fixpoint all_chars (ok : ascii -> bool) (s : string) : bool :=
  match s with
  | EmptyString => true
  | String c rest => ok c && all_chars ok rest
  end.

(** Patterns of ordinary characters only. *)
Definition is_literal (pat : string) : bool :=
  all_chars (fun c => negb (is_special c)) pat.

(** Patterns of ordinary characters and dots. *)
Definition in_fragment (pat : string) : bool :=
  all_chars (fun c => negb (is_special c) || Ascii.eqb c ".") pat.

Definition newline : ascii := ascii_of_nat 10.

(** [re.match(pat, s) is not None] on the fragment. *)
Fixpoint match_here (pat s : string) : bool :=
  match pat, s with
  | EmptyString, _ => true
  | String _ _, EmptyString => false
  | String p pat', String c s' =>
      (if Ascii.eqb p "." then negb (Ascii.eqb c newline) else Ascii.eqb p c)
      && match_here pat' s'
  end.

(** [re.search(pat, s) is not None] on the fragment. *)
Fixpoint search (pat s : string) : bool :=
  match_here pat s ||
  match s with
  | EmptyString => false
  | String _ s' => search pat s'
  end.

End Regex.

Module Pandas.

(** A cell of a frame read from CSV: text, a number, or missing. *)
Inductive cell : Type :=
| CStr (s : string)
| CInt (n : Z)
| CNaN.

Inductive dtype : Type := DObject | DInt64 | DFloat64.

Record DataFrame : Type := mkFrame {
  columns : list (string * dtype);
  rows : list (list cell)
}.

(** The [value] of a filter rule: a JSON scalar. *)
Inductive scalar : Type :=
| SNone
| SBool (b : bool)
| SInt (n : Z)
| SStr (s : string).

(** [str(value)] *)
Definition py_str (v : scalar) : string :=
  match v with
  | SNone => "None"
  | SBool true => "True"
  | SBool false => "False"
  | SInt n => PyStr.of_Z n
  | SStr s => s
  end.

(** What [filter_csv] asks of pandas and [re] beyond the fragment. *)
Class Library : Type := {
  (** [pd.read_csv(path)] *)
  read_csv : string -> World -> outcome DataFrame;
  (** the mask of [df[column] == value], [>] and [<], by operator *)
  compare : string -> dtype -> list cell -> scalar -> outcome (list bool);
  (** [re.compile(pat).search] for a pattern outside the fragment *)
  compile_other : string -> outcome (string -> bool);
  (** the text of the [AttributeError] of the [.str] accessor on a
      column that is not text (its wording differs between versions of
      pandas) *)
  str_accessor_complaint : dtype -> string
}.

(** The position and dtype of a column. *)
Fixpoint column_position (name : string) (cols : list (string * dtype))
  : option (nat * dtype) :=
  match cols with
  | [] => None
  | (c, dt) :: rest =>
      if String.eqb c name then Some (O, dt)
      else match column_position name rest with
           | Some (i, dt') => Some (S i, dt')
           | None => None
           end
  end.

(** [df[column]] *)
Definition get_series (df : DataFrame) (column : string)
  : outcome (dtype * list cell) :=
  match column_position column (columns df) with
  | Some (i, dt) => Return (dt, map (fun row => nth i row CNaN) (rows df))
  | None => Raise (KeyError (PyRepr.repr column))
  end.

(** [df[mask]] *)
Definition select_rows (df : DataFrame) (mask : list bool) : DataFrame :=
  mkFrame (columns df) (map fst (List.filter snd (combine (rows df) mask))).

Section WithLibrary.
Context {lib : Library}.

(** [re.compile(pat).search], as a test. *)
Definition compile (pat : string) : outcome (string -> bool) :=
  if Regex.in_fragment pat then Return (Regex.search pat)
  else compile_other pat.

(** [series.str.contains(pat, na=False)]; [regex=True] is the
    default.  The [.str] accessor exists on object columns only. *)
Definition str_contains (dt : dtype) (series : list cell) (pat : string)
  : outcome (list bool) :=
  match dt with
  | DObject =>
      match compile pat with
      | Return found =>
          Return (map (fun c => match c with
                                | CStr s => found s
                                | _ => false
                                end) series)
      | Raise e => Raise e
      end
  | _ => Raise (AttributeError (str_accessor_complaint dt))
  end.

End WithLibrary.

End Pandas.

Import Pandas.

(** One entry of ["filters"]: [operator] is absent when [None]. *)
Record filter_rule : Type := mkRule {
  column : string;
  value : scalar;
  operator : option string
}.

(** The JSON payload of the request, as the docstring of [filter_csv]
    gives it; ["filters"] is absent when [None]. *)
Record payload : Type := mkPayload {
  csv_path : string;
  filters : option (list filter_rule)
}.

Inductive json_body : Type :=
| ErrorBody (error : string)
| RecordsBody (records : list (list (string * cell))).

(** [jsonify(...)], with the status code ([200] when none is given). *)
Record flask_response : Type := mkFlask {
  body : json_body;
  status : Z
}.

(** [df.to_dict(orient='records')] *)
Definition to_dict_records (df : DataFrame) : list (list (string * cell)) :=
  map (fun row => combine (map fst (columns df)) row) (rows df).

Section FilterCsv.
Context {lib : Library}.

Definition compare_and_select (op : string) (df : DataFrame)
                              (rule : filter_rule) : outcome DataFrame :=
  match get_series df (column rule) with
  | Raise e => Raise e
  | Return (dt, series) =>
      match compare op dt series (value rule) with
      | Raise e => Raise e
      | Return mask => Return (select_rows df mask)
      end
  end.

(** The body of the loop over the filter rules. *)
Definition apply_filter (df : DataFrame) (rule : filter_rule) : outcome DataFrame :=
  let op := match operator rule with Some o => o | None => "==" end in
  if String.eqb op "==" then compare_and_select "==" df rule
  else if String.eqb op ">" then compare_and_select ">" df rule
  else if String.eqb op "<" then compare_and_select "<" df rule
  else if String.eqb op "contains" then
    match get_series df (column rule) with
    | Raise e => Raise e
    | Return (dt, series) =>
        match str_contains dt series (py_str (value rule)) with
        | Raise e => Raise e
        | Return mask => Return (select_rows df mask)
        end
    end
  else Return df.

Fixpoint apply_filters (df : DataFrame) (rules : list filter_rule)
  : outcome DataFrame :=
  match rules with
  | [] => Return df
  | rule :: rest =>
      match apply_filter df rule with
      | Raise e => Raise e
      | Return df' => apply_filters df' rest
      end
  end.

(** The [try] block of [filter_csv]. *)
Definition filter_csv_try (data : payload) (w : World) : outcome flask_response :=
  if negb (validate_path (csv_path data) w)
  then Return (mkFlask (ErrorBody "Invalid path") 403)
  else
    match read_csv (csv_path data) w with
    | Raise e => Raise e
    | Return df =>
        let rules := match filters data with Some l => l | None => [] end in
        match apply_filters df rules with
        | Raise e => Raise e
        | Return df' => Return (mkFlask (RecordsBody (to_dict_records df')) 200)
        end
    end.

(** [filter_csv()] *)
Definition filter_csv (data : payload) (w : World) : outcome flask_response :=
  match filter_csv_try data w with
  | Raise e =>
      if is_Exception e then Return (mkFlask (ErrorBody (exn_str e)) 500)
      else Raise e
  | r => r
  end.

End FilterCsv.

(* ===================================================================== *)
(** * The specification's reading of the sandbox, and sample data *)
(* ===================================================================== *)

(** "Is SandboxRoot or a descendant of it", on a canonical absolute
    path: the root itself, or a path below the root's directory. *)
Definition inside_root (canonical : string) : bool :=
  String.eqb canonical "/data" || PyStr.startswith canonical "/data/".

(** A component that [normpath] keeps for an absolute path: a name, not
    the empty component, [.] or [..]. *)
Definition plain_component (comp : string) : Prop :=
  comp <> "" /\ comp <> "." /\ comp <> "..".

(** The argument is a string that holds the separator and fails the
    sandbox predicate. *)
Definition offending (w : World) (arg : pyval) : Prop :=
  exists s, arg = PStr s /\ PyStr.contains PosixPath.sep s = true
            /\ validate_path s w = false.

(** The cell is text that holds [needle]. *)
Definition cell_contains (needle : string) (c : cell) : bool :=
  match c with
  | CStr s => PyStr.contains needle s
  | _ => false
  end.

(** The cell is text in which the pattern of the fragment is found. *)
Definition cell_search (pat : string) (c : cell) : bool :=
  match c with
  | CStr s => Regex.search pat s
  | _ => false
  end.

(** The cell is text that the compiled pattern finds something in. *)
Definition cell_found (found : string -> bool) (c : cell) : bool :=
  match c with
  | CStr s => found s
  | _ => false
  end.

(** A library whose [re] refuses every pattern outside the fragment. *)
Definition strict_library (base : Library) : Library :=
  {| read_csv := @read_csv base;
     compare := @compare base;
     compile_other := fun pat =>
       Raise (OtherError "error"
                ("missing ), unterminated subpattern at position 0"));
     str_accessor_complaint := @str_accessor_complaint base |}.

(** A call without keyword arguments. *)
Definition no_kwargs : list (string * pyval) := [].

(** A function that only records that its body ran. *)
Definition spy_func (name : string) : pyfunc :=
  {| fn_name := name;
     fn_call := fun _ _ w =>
       (Return PNone,
        mkWorld (cwd w) (files w) (stdout w) (net_log w) (call_log w ++ [name])) |}.

(** Handler bodies that record the request and write the file. *)
Definition recording_bodies : HandlerBodies :=
  {| fetch_and_save := fun url save_path w =>
       match url, save_path with
       | PStr u, PStr p =>
           (Return tt,
            mkWorld (cwd w) (<[p := RegularFile ("body of " +:+ u)]> (files w))
                    (stdout w) (net_log w ++ [u]) (call_log w))
       | _, _ => (Raise (TypeError "expected str"), w)
       end;
     transcribe_and_save := fun _ _ =>
       raise (OtherError "ModuleNotFoundError" "No module named 'openai'") |}.

(** A [tasksA] whose operations all succeed with [None]. *)
Definition quiet_tasks : TasksA := {| tasksA_call := fun _ => ret PNone |}.

(** A process started in [/app], with one file outside the sandbox. *)
Definition app_world : World :=
  mkWorld (Some "/app") (<["/etc/passwd" := RegularFile "root:x:0:0"]> ∅) [] [] [].

(** A process started in [/data_evil], a directory next to the sandbox
    root, with an empty store. *)
Definition sibling_world : World := mkWorld (Some "/data_evil") ∅ [] [] [].

(** The table of [setup_test_data] in [evaluateB.py]. *)
Definition test_frame : DataFrame :=
  mkFrame [("name", DObject); ("age", DInt64)]
          [ [CStr "Alice"; CInt 25];
            [CStr "Bob"; CInt 30];
            [CStr "Charlie"; CInt 35] ].

(** A library that reads [test_frame] from every path. *)
Definition test_library : Library :=
  {| read_csv := fun _ _ => Return test_frame;
     compare := fun _ _ series _ => Return (map (fun _ => true) series);
     compile_other := fun _ => Raise (OtherError "re.error" "bad pattern");
     str_accessor_complaint := fun _ =>
       "Can only use .str accessor with string values!" |}.

(* ===================================================================== *)
(** * Notions used to state further properties of the code *)
(* ===================================================================== *)

(** The string is made of whitespace only. *)
Definition all_space (s : string) : bool := Regex.all_chars PyStr.isspace s.

(** The string begins with a character that is not whitespace. *)
Definition starts_nonspace (s : string) : bool :=
  match s with
  | EmptyString => false
  | String c _ => negb (PyStr.isspace c)
  end.

(** The string ends with a character that is not whitespace. *)
Fixpoint ends_nonspace (s : string) : bool :=
  match s with
  | EmptyString => false
  | String c EmptyString => negb (PyStr.isspace c)
  | String _ rest => ends_nonspace rest
  end.

(** Every marker of the registry begins and ends with a character that
    is not whitespace. *)
Definition markers_trimmed (reg : list OperationSpec) : bool :=
  List.forallb
    (fun spec => List.forallb (fun m => starts_nonspace m && ends_nonspace m)
                              (op_markers spec))
    reg.

(** The operators that [filter_csv] acts on. *)
Definition known_operator (rule : filter_rule) : bool :=
  match operator rule with
  | None => true
  | Some op =>
      String.eqb op "==" || String.eqb op ">" || String.eqb op "<"
      || String.eqb op "contains"
  end.

(* ===================================================================== *)
(** * [os]: [split], [dirname], [mkdir], [makedirs] *)
(* ===================================================================== *)

(** The directory operations of [os] over the store [files] of the
    [World].  The store knows a file by the spelling of its path: the
    operations are exact for paths in normal form (no trailing slash, no
    [.] or [..]) that are all spelled from the same directory. *)
Module Os.

(** [FileExistsError] and [NotADirectoryError], by class name. *)
Definition FileExistsError (msg : string) : exn := OtherError "FileExistsError" msg.
Definition NotADirectoryError (msg : string) : exn := OtherError "NotADirectoryError" msg.

(** [isinstance(e, FileExistsError)] *)
Definition is_FileExistsError (e : exn) : bool :=
  match e with
  | OtherError cls _ => String.eqb cls "FileExistsError"
  | _ => false
  end.

(** [isinstance(e, OSError)] *)
Definition is_OSError (e : exn) : bool :=
  match e with
  | PermissionError _ | FileNotFoundError _ | IsADirectoryError _ => true
  | OtherError cls _ =>
      String.eqb cls "OSError" || String.eqb cls "FileExistsError"
      || String.eqb cls "NotADirectoryError"
  | _ => false
  end.

(** [(p[:i], p[i:])] for [i = p.rfind('/') + 1] *)
Fixpoint cut_after_last_sep (p : string) : string * string :=
  match p with
  | EmptyString => (EmptyString, EmptyString)
  | String c rest =>
      if PyStr.contains "/" rest then
        let (head, tail) := cut_after_last_sep rest in (String c head, tail)
      else if Ascii.eqb c "/" then (String c EmptyString, rest)
      else (EmptyString, String c rest)
  end.

(** [s.rstrip('/')] *)
Fixpoint rstrip_sep (s : string) : string :=
  match s with
  | EmptyString => EmptyString
  | String c rest =>
      match rstrip_sep rest with
      | EmptyString => if Ascii.eqb c "/" then EmptyString else String c EmptyString
      | kept => String c kept
      end
  end.

(** [s == '/' * len(s)] *)
Definition all_sep (s : string) : bool :=
  Regex.all_chars (fun c => Ascii.eqb c "/") s.

(** [os.path.split(p)] *)
Definition split (p : string) : string * string :=
  let (head, tail) := cut_after_last_sep p in
  let head :=
    if negb (String.eqb head "") && negb (all_sep head) then rstrip_sep head
    else head in
  (head, tail).

(** [os.path.dirname(p)] *)
Definition dirname (p : string) : string := fst (split p).

(** The path can be looked up: it is not empty, holds no NUL, does not
    pass through a file, and a relative one has a working directory to
    start from. *)
Definition reachable (p : string) (w : World) : bool :=
  negb (String.eqb p "") && negb (has_nul p) && negb (unreachable p w)
  && negb (below_file (files w) p).

(** [os.path.exists(p)] *)
Definition path_exists (p : string) (w : World) : bool :=
  reachable p w &&
  match files w !! p with
  | Some _ => true
  | None => false
  end.

(** [os.path.isdir(p)] *)
Definition isdir (p : string) (w : World) : bool :=
  reachable p w &&
  match files w !! p with
  | Some Directory => true
  | _ => false
  end.

Definition with_files (f : gmap string file_node) (w : World) : World :=
  mkWorld (cwd w) f (stdout w) (net_log w) (call_log w).

(** [os.mkdir(p)]: the directory is made when the path is free and the
    directory above it exists.  The root always exists, the working
    directory when the process has one; a NUL in the path is a
    [ValueError], a path through a file a [NotADirectoryError].  Every
    directory of the store may be written to. *)
Definition mkdir (p : string) : M unit :=
  fun w =>
    if String.eqb p "" then
      (Raise (FileNotFoundError "[Errno 2] No such file or directory: ''"), w)
    else if has_nul p then
      (Raise (OtherError "ValueError" "embedded null byte"), w)
    else if unreachable p w then
      (Raise (FileNotFoundError
                ("[Errno 2] No such file or directory: " +:+ PyRepr.repr p)), w)
    else if below_file (files w) p then
      (Raise (NotADirectoryError ("[Errno 20] Not a directory: " +:+ PyRepr.repr p)), w)
    else
      match files w !! p with
      | Some _ =>
          (Raise (FileExistsError ("[Errno 17] File exists: " +:+ PyRepr.repr p)), w)
      | None =>
          let parent := dirname p in
          if String.eqb parent "" || all_sep parent then
            (Return tt, with_files (<[p := Directory]> (files w)) w)
          else
            match files w !! parent with
            | Some Directory =>
                (Return tt, with_files (<[p := Directory]> (files w)) w)
            | Some _ =>
                (Raise (NotADirectoryError
                          ("[Errno 20] Not a directory: " +:+ PyRepr.repr p)), w)
            | None =>
                (Raise (FileNotFoundError
                          ("[Errno 2] No such file or directory: " +:+ PyRepr.repr p)), w)
            end
      end.

(** The [try: mkdir(name) except OSError: ...] at the end of
    [makedirs]. *)
Definition mkdir_leaf (name : string) (exist_ok : bool) : M unit :=
  fun w =>
    match mkdir name w with
    | (Raise e, w') =>
        if is_OSError e then
          if negb exist_ok || negb (isdir name w') then (Raise e, w')
          else (Return tt, w')
        else (Raise e, w')
    | r => r
    end.

(** [os.makedirs(name, exist_ok=exist_ok)]; the recursion is on [head],
    which is shorter than [name], and [fuel] bounds its depth. *)
Fixpoint makedirs_rec (fuel : nat) (name : string) (exist_ok : bool) : M unit :=
  match fuel with
  | O => raise (OtherError "RecursionError" "maximum recursion depth exceeded")
  | S fuel' =>
      fun w =>
        let (head, tail) := split name in
        let (head, tail) :=
          if String.eqb tail "" then split head else (head, tail) in
        if negb (String.eqb head "") && negb (String.eqb tail "")
           && negb (path_exists head w)
        then
          match makedirs_rec fuel' head exist_ok w with
          | (Raise e, w') =>
              if is_FileExistsError e then
                if String.eqb tail "." then (Return tt, w')
                else mkdir_leaf name exist_ok w'
              else (Raise e, w')
          | (Return _, w') =>
              if String.eqb tail "." then (Return tt, w')
              else mkdir_leaf name exist_ok w'
          end
        else mkdir_leaf name exist_ok w
  end.

Definition makedirs (name : string) (exist_ok : bool) : M unit :=
  makedirs_rec (S (String.length name)) name exist_ok.

End Os.

(** [for x in items: body(x)] *)
Fixpoint for_each {A : Type} (items : list A) (body : A -> M unit) : M unit :=
  match items with
  | [] => ret tt
  | x :: rest => (run! body x in for_each rest body)%py
  end.

(** [ensure_data_dir()] of [server.py] *)
Definition ensure_data_dir : M unit :=
  let dirs := ["data"; "data/docs"; "data/logs"] in
  for_each dirs (fun d => Os.makedirs d true).

(** [startup_event()] of [server.py] *)
Definition startup_event : M unit := ensure_data_dir.

(** The directories of [ensure_data_dir]. *)
Definition data_dirs : list string := ["data"; "data/docs"; "data/logs"].

(** The store with the three data directories added. *)
Definition with_data_dirs (store : gmap string file_node) : gmap string file_node :=
  <["data/logs" := Directory]> (<["data/docs" := Directory]> (<["data" := Directory]> store)).

(** The path is free or holds a directory. *)
Definition free_or_directory (w : World) (p : string) : bool :=
  match files w !! p with
  | None | Some Directory => true
  | Some _ => false
  end.

(* ===================================================================== *)
(** * [tasksB.py]: the other handlers *)
(* ===================================================================== *)

(** [bool(v)] *)
Definition py_truthy (v : pyval) : bool :=
  match v with
  | PNone => false
  | PBool b => b
  | PInt n => negb (Z.eqb n 0)
  | PStr s => negb (String.eqb s "")
  | PTuple items | PList items =>
      match items with [] => false | _ :: _ => true end
  end.

(** Binding the arguments of a call to positional-or-keyword parameters,
    each with its default when it has one: [None] where Python raises
    [TypeError]. *)
Fixpoint bind_defaults (params : list (string * option pyval)) (args : list pyval)
                       (kwargs : list (string * pyval)) : option (list pyval) :=
  match params, args with
  | [], [] => match kwargs with [] => Some [] | _ :: _ => None end
  | [], _ :: _ => None
  | (name, _) :: params', a :: args' =>
      match kw_lookup name kwargs with
      | Some _ => None
      | None => option_map (cons a) (bind_defaults params' args' kwargs)
      end
  | (name, default) :: params', [] =>
      match kw_lookup name kwargs with
      | Some v =>
          option_map (cons v) (bind_defaults params' [] (kw_remove name kwargs))
      | None =>
          match default with
          | Some d => option_map (cons d) (bind_defaults params' [] kwargs)
          | None => None
          end
      end
  end.

(** What the handlers call in [requests], [git], [sqlite3], [duckdb],
    [json], [bs4], [PIL], [markdown], [codecs], [openai] and the built-in
    [open]; the objects these hand out are kept abstract. *)
Class Libraries : Type := {
  Response : Type;
  Soup : Type;
  File : Type;
  Repo : Type;
  Conn : Type;
  Image : Type;
  Transcript : Type;
  (** [import name] *)
  import_module : string -> M unit;
  (** [requests.get(url, timeout=30)] *)
  requests_get : pyval -> M Response;
  (** [response.raise_for_status()] *)
  raise_for_status : Response -> M unit;
  (** [response.text] *)
  response_text : Response -> M string;
  (** [open(path, mode)] and [codecs.open(path, mode, encoding="utf-8")] *)
  file_open : pyval -> string -> M File;
  codecs_open : pyval -> string -> M File;
  file_read : File -> M string;
  file_write : File -> string -> M unit;
  (** the [__exit__] of a file *)
  file_close : File -> M unit;
  (** [os.path.exists(path)] *)
  os_path_exists : pyval -> M bool;
  (** [git.Repo.clone_from(url, path)], [git.Repo(path)],
      [repo.index.add(pattern)], [repo.index.commit(message)] *)
  git_clone_from : pyval -> pyval -> M Repo;
  git_Repo : pyval -> M Repo;
  git_index_add : Repo -> string -> M unit;
  git_index_commit : Repo -> pyval -> M unit;
  (** [sqlite3.connect(path)], [duckdb.connect(path)] *)
  sqlite3_connect : pyval -> M Conn;
  duckdb_connect : pyval -> M Conn;
  (** [cur = conn.cursor(); cur.execute(query); cur.fetchall()] *)
  query_fetchall : Conn -> pyval -> M (list (list pyval));
  (** [json.dump(rows, f, indent=2)] *)
  json_dump : list (list pyval) -> File -> M unit;
  (** [conn.close()] *)
  conn_close : Conn -> M unit;
  (** [BeautifulSoup(text, 'html.parser')], [soup.prettify()] *)
  bs4_parse : string -> M Soup;
  soup_prettify : Soup -> M string;
  (** [Image.open(path)], [img.resize(size, LANCZOS)], [img.format],
      [img.save(path, format=, quality=, optimize=True)] *)
  image_open : pyval -> M Image;
  image_resize : Image -> pyval -> M Image;
  image_format : Image -> pyval;
  image_save : Image -> pyval -> pyval -> pyval -> M unit;
  (** [markdown.markdown(text, extensions=['extra', 'codehilite'])] *)
  markdown_render : string -> M string;
  (** [openai.Audio.transcribe("whisper-1", f)], [transcript.text] *)
  openai_transcribe : File -> M Transcript;
  transcript_text : Transcript -> M string
}.

Section OtherHandlers.
Context {lib : Libraries}.


(** A handler: its parameters, the body of its [try], and the [except]
    that prints and returns [failure]. *)
Definition handler_def (name : string) (params : list (string * option pyval))
                       (label : string) (failure : pyval)
                       (try_body : list pyval -> M pyval) : pyfunc :=
  {| fn_name := name;
     fn_call := fun args kwargs =>
       match bind_defaults params args kwargs with
       | Some bound =>
           try_except_Exception (try_body bound)
             (fun e => run! print (label +:+ exn_str e) in ret failure)%py
       | None => raise (TypeError (name +:+ "(): arguments do not match the parameters"))
       end |}.

(** The [try] block of [git_operations]. *)
Definition git_operations_try (repo_url local_path commit_message : pyval) : M pyval :=
  (run! import_module "git" in
   let! present := os_path_exists local_path in
   let! repo := (if negb present then git_clone_from repo_url local_path
                 else git_Repo local_path) in
   run! (if py_truthy commit_message
         then (run! git_index_add repo "*" in git_index_commit repo commit_message)
         else ret tt) in
   ret (PBool true))%py.

(** [@security_check def git_operations(repo_url, local_path,
    commit_message=None)] *)
Definition git_operations : pyfunc :=
  security_check
    (handler_def "git_operations"
       [("repo_url", None); ("local_path", None); ("commit_message", Some PNone)]
       "Error in git operations: " (PBool false)
       (fun bound =>
          match bound with
          | [repo_url; local_path; commit_message] =>
              git_operations_try repo_url local_path commit_message
          | _ => raise (TypeError "git_operations(): arguments do not match the parameters")
          end)).






(** The [try] block of [process_image]. *)
Definition process_image_try (image_path output_path resize format quality : pyval)
  : M pyval :=
  (run! import_module "PIL" in
   let! img := image_open image_path in
   let! img := (if py_truthy resize then image_resize img resize else ret img) in
   let format := if py_truthy format then format else image_format img in
   run! image_save img output_path format quality in
   ret (PBool true))%py.

(** [@security_check def process_image(image_path, output_path,
    resize=None, format=None, quality=85)] *)
Definition process_image : pyfunc :=
  security_check
    (handler_def "process_image"
       [("image_path", None); ("output_path", None); ("resize", Some PNone);
        ("format", Some PNone); ("quality", Some (PInt 85))]
       "Error processing image: " (PBool false)
       (fun bound =>
          match bound with
          | [image_path; output_path; resize; format; quality] =>
              process_image_try image_path output_path resize format quality
          | _ => raise (TypeError "process_image(): arguments do not match the parameters")
          end)).







End OtherHandlers.



(** Libraries that record what they are asked, every call succeeding. *)
Definition note (event : string) (w : World) : World :=
  mkWorld (cwd w) (files w) (stdout w) (net_log w) (call_log w ++ [event]).

Definition recording_libraries_with (get : pyval -> M string) : Libraries :=
  {| Response := string; Soup := string; File := string; Repo := string;
     Conn := string; Image := string; Transcript := string;
     import_module := fun name w => (Return tt, note ("import " +:+ name) w);
     requests_get := get;
     raise_for_status := fun _ w => (Return tt, w);
     response_text := fun r w => (Return "text", w);
     file_open := fun path mode w => (Return "file", note ("open " +:+ mode) w);
     codecs_open := fun path mode w => (Return "file", note ("codecs.open " +:+ mode) w);
     file_read := fun _ w => (Return "# text", note "read" w);
     file_write := fun _ text w => (Return tt, note ("write " +:+ text) w);
     file_close := fun _ w => (Return tt, note "close" w);
     os_path_exists := fun _ w => (Return false, w);
     git_clone_from := fun _ _ w => (Return "repo", note "clone" w);
     git_Repo := fun _ w => (Return "repo", note "Repo" w);
     git_index_add := fun _ _ w => (Return tt, note "add" w);
     git_index_commit := fun _ _ w => (Return tt, note "commit" w);
     sqlite3_connect := fun _ w => (Return "sqlite", note "sqlite3.connect" w);
     duckdb_connect := fun _ w => (Return "duckdb", note "duckdb.connect" w);
     query_fetchall := fun _ _ w => (Return [[PInt 1; PStr "a"]], note "execute" w);
     json_dump := fun _ _ w => (Return tt, note "json.dump" w);
     conn_close := fun _ w => (Return tt, note "conn.close" w);
     bs4_parse := fun text w => (Return text, w);
     soup_prettify := fun soup w => (Return soup, w);
     image_open := fun _ w => (Return "image", note "Image.open" w);
     image_resize := fun img _ w => (Return img, note "resize" w);
     image_format := fun _ => PStr "JPEG";
     image_save := fun _ _ _ _ w => (Return tt, note "save" w);
     markdown_render := fun text w => (Return text, w);
     openai_transcribe := fun _ w => (Return "transcript", w);
     transcript_text := fun t w => (Return t, w) |}.

Definition recording_libraries : Libraries :=
  recording_libraries_with (fun url w => (Return "response", note "requests.get" w)).


(** A process started in [/data]. *)
Definition data_world : World := mkWorld (Some "/data") ∅ [] [] [].

(* ===================================================================== *)
(** * Facts about strings *)
(* ===================================================================== *)

Lemma append_nil_l (s : string) : "" +:+ s = s.
Proof. reflexivity. Qed.

Lemma append_cons (c : ascii) (a b : string) :
  String c a +:+ b = String c (a +:+ b).
Proof. reflexivity. Qed.

Lemma prefix_app (p r : string) : String.prefix p (p +:+ r) = true.
Proof.
  induction p as [|c q IH].
  - now destruct r.
  - rewrite append_cons. simpl.
    destruct (ascii_dec c c) as [_|ne]; [exact IH | now destruct ne].
Qed.

Lemma prefix_inv (p s : string) :
  String.prefix p s = true -> exists r, s = p +:+ r.
Proof.
  revert s; induction p as [|c q IH]; intros s H.
  - now exists s.
  - destruct s as [|d t]; simpl in H; [discriminate|].
    destruct (ascii_dec c d) as [->|]; [|discriminate].
    destruct (IH t H) as [r ->]. now exists r.
Qed.

Lemma contains_unfold (needle hay : string) :
  PyStr.contains needle hay =
  String.prefix needle hay ||
  match hay with
  | EmptyString => false
  | String _ rest => PyStr.contains needle rest
  end.
Proof. now destruct hay. Qed.

(** [needle in hay] holds exactly when [hay] is some text, [needle], and
    some more text. *)
Lemma contains_iff (needle hay : string) :
  PyStr.contains needle hay = true <->
  exists before after, hay = before +:+ needle +:+ after.
Proof.
  split.
  - induction hay as [|c rest IH]; rewrite contains_unfold; intros H;
      apply orb_true_iff in H as [H|H]; try discriminate.
    + apply prefix_inv in H as [r ->]. now exists "", r.
    + apply prefix_inv in H as [r ->]. now exists "", r.
    + destruct (IH H) as (b & a & ->). now exists (String c b), a.
  - intros (b & a & ->). induction b as [|c b' IH].
    + rewrite append_nil_l, contains_unfold, prefix_app. reflexivity.
    + rewrite append_cons, contains_unfold, IH. apply orb_true_r.
Qed.

Lemma contains_middle (before needle after : string) :
  PyStr.contains needle (before +:+ needle +:+ after) = true.
Proof. apply contains_iff. now exists before, after. Qed.

(* ===================================================================== *)
(** * Facts about [validate_path] *)
(* ===================================================================== *)

Lemma abspath_root (w : World) : PosixPath.abspath "/data" w = Return "/data".
Proof. reflexivity. Qed.

Lemma abspath_absolute (p : string) (w : World) :
  PosixPath.isabs p = true -> PosixPath.abspath p w = Return (PosixPath.normpath p).
Proof. unfold PosixPath.abspath. now intros ->. Qed.

(** [validate_path] is the prefix test on the result of [abspath]. *)
Lemma validate_path_true_iff (p : string) (w : World) :
  validate_path p w = true <->
  exists abs_path, PosixPath.abspath p w = Return abs_path
                   /\ PyStr.startswith abs_path "/data" = true.
Proof.
  unfold validate_path, validate_path_try. rewrite abspath_root.
  destruct (PosixPath.abspath p w) as [a|e]; split.
  - intros H. now exists a.
  - intros (a' & [= <-] & H). exact H.
  - discriminate.
  - intros (a' & [=] & _).
Qed.

Lemma validate_path_false_iff (p : string) (w : World) :
  validate_path p w = false <->
  forall abs_path, PosixPath.abspath p w = Return abs_path ->
                   PyStr.startswith abs_path "/data" = false.
Proof.
  unfold validate_path, validate_path_try. rewrite abspath_root.
  destruct (PosixPath.abspath p w) as [a|e]; split.
  - now intros H a' [= <-].
  - intros H. now apply H.
  - discriminate.
  - reflexivity.
Qed.

(** Nothing inside the root is refused. *)
Lemma validate_path_inside_root (p abs_path : string) (w : World) :
  PosixPath.abspath p w = Return abs_path ->
  inside_root abs_path = true ->
  validate_path p w = true.
Proof.
  intros Habs Hin. apply validate_path_true_iff. exists abs_path. split; [exact Habs|].
  unfold inside_root in Hin. apply orb_true_iff in Hin as [H|H].
  - apply String.eqb_eq in H. now subst.
  - unfold PyStr.startswith in *. apply prefix_inv in H as [r ->].
    apply (prefix_app "/data" ("/" +:+ r)).
Qed.

Lemma Forall_removelast {A : Type} (P : A -> Prop) (l : list A) :
  Forall P l -> Forall P (List.removelast l).
Proof.
  induction 1 as [|x l Hx Hl IH]; [constructor|].
  cbn. destruct l; [constructor | now constructor].
Qed.

Lemma Forall_last {A : Type} (P : A -> Prop) (l : list A) (d : A) :
  l <> [] -> Forall P l -> P (List.last l d).
Proof.
  induction 2 as [|x l' Hx Hl IH]; [congruence|].
  cbn. destruct l'; [exact Hx | apply IH; discriminate].
Qed.

(** One round of the loop of [normpath], below a leading slash, keeps
    the stack free of [.], [..] and empty components. *)
Lemma normpath_step_plain (slashes : nat) (comps : list string) (comp : string) :
  slashes <> 0%nat ->
  Forall plain_component comps ->
  Forall plain_component (PosixPath.normpath_step slashes comps comp).
Proof.
  intros Hs Hall. unfold PosixPath.normpath_step.
  destruct (String.eqb_spec comp "") as [|Hne]; [assumption|].
  destruct (String.eqb_spec comp ".") as [|Hnd]; [assumption|]. cbn [orb].
  destruct (String.eqb_spec comp "..") as [->|Hndd]; cbn [negb orb].
  - apply Nat.eqb_neq in Hs. rewrite Hs. cbn [andb orb].
    destruct comps as [|c comps']; [assumption|].
    cbn [List.length Nat.eqb negb andb].
    assert (Hlast : plain_component (List.last (c :: comps') ""))
      by (apply Forall_last; [discriminate | assumption]).
    destruct Hlast as (_ & _ & Hlast). apply String.eqb_neq in Hlast.
    rewrite Hlast. now apply Forall_removelast.
  - apply Forall_app. split; [assumption|]. constructor; [|constructor].
    now repeat split.
Qed.

(** [abspath] resolves the traversal segments of an absolute path: what
    is left has no [.], no [..] and no empty component. *)
Lemma normpath_comps_plain (p : string) :
  PosixPath.isabs p = true ->
  Forall plain_component (PosixPath.normpath_comps p).
Proof.
  intros Habs. unfold PosixPath.normpath_comps.
  assert (Hs : PosixPath.initial_slashes p <> 0%nat).
  { unfold PosixPath.initial_slashes. unfold PosixPath.isabs in Habs.
    rewrite Habs. now destruct (_ && _). }
  assert (Hgen : forall comps acc, Forall plain_component acc ->
            Forall plain_component
              (List.fold_left (PosixPath.normpath_step (PosixPath.initial_slashes p))
                              comps acc)).
  { induction comps as [|comp comps IH]; intros acc Hacc; [exact Hacc|].
    cbn. apply IH. now apply normpath_step_plain. }
  apply Hgen. constructor.
Qed.

(** What the prefix test accepts: the root, the paths below it, and
    the paths that go on after [/data] with a character other than the
    separator. *)
Lemma startswith_root_cases (abs_path : string) :
  PyStr.startswith abs_path "/data" = true <->
  inside_root abs_path = true
  \/ exists c rest, abs_path = "/data" +:+ String c rest /\ c <> "/"%char.
Proof.
  unfold inside_root, PyStr.startswith. split.
  - intros H. apply prefix_inv in H as [r ->].
    destruct r as [|c rest]; [now left|].
    destruct (Ascii.eqb_spec c "/") as [->|Hne].
    + left. apply orb_true_iff. right. apply (prefix_app "/data/" rest).
    + right. now exists c, rest.
  - intros [H|(c & rest & -> & _)].
    + apply orb_true_iff in H as [H|H].
      * apply String.eqb_eq in H. now subst.
      * apply prefix_inv in H as [r ->]. apply (prefix_app "/data" ("/" +:+ r)).
    + apply prefix_app.
Qed.

(* ===================================================================== *)
(** * Facts about the security gate *)
(* ===================================================================== *)

Lemma check_arguments_cons (arg : pyval) (rest : list pyval) (w : World) :
  check_arguments (arg :: rest) w =
  match arg with
  | PStr s =>
      if PyStr.contains PosixPath.sep s && negb (validate_path s w)
      then (Raise (PermissionError (access_denied s)), w)
      else check_arguments rest w
  | _ => check_arguments rest w
  end.
Proof.
  destruct arg; try reflexivity. simpl.
  destruct (PyStr.contains PosixPath.sep s); [|reflexivity].
  now destruct (validate_path s w).
Qed.

(** The loop never touches the world. *)
Lemma check_arguments_world (all_args : list pyval) (w : World) :
  snd (check_arguments all_args w) = w.
Proof.
  induction all_args as [|arg rest IH]; [reflexivity|].
  rewrite check_arguments_cons. destruct arg; try exact IH.
  now destruct (_ && _).
Qed.

(** The loop either passes or raises the denial for an offending
    argument of the list. *)
Lemma check_arguments_cases (all_args : list pyval) (w : World) :
  (check_arguments all_args w = (Return tt, w)
   /\ forall arg, In arg all_args -> ~ offending w arg)
  \/
  (exists s, check_arguments all_args w
             = (Raise (PermissionError (access_denied s)), w)
             /\ In (PStr s) all_args /\ offending w (PStr s)).
Proof.
  induction all_args as [|arg rest IH].
  - left. split; [reflexivity | intros ? []].
  - rewrite check_arguments_cons.
    assert (Hrest : ~ offending w arg ->
              (check_arguments rest w = (Return tt, w)
               /\ forall a, In a (arg :: rest) -> ~ offending w a)
              \/
              (exists s, check_arguments rest w
                         = (Raise (PermissionError (access_denied s)), w)
                         /\ In (PStr s) (arg :: rest) /\ offending w (PStr s))).
    { intros Hok. destruct IH as [[Hp Hall]|(s & Hr & Hin & Hoff)].
      - left. split; [exact Hp|]. intros a [<-|Ha]; [exact Hok | now apply Hall].
      - right. exists s. repeat split; [exact Hr | now right | exact Hoff]. }
    destruct arg as [| | |s| |];
      try (apply Hrest; intros (s' & [=] & _)).
    destruct (PyStr.contains PosixPath.sep s) eqn:Hsep; simpl.
    + destruct (validate_path s w) eqn:Hval; simpl.
      * apply Hrest. intros (s' & [= <-] & _ & Hv). congruence.
      * right. exists s. repeat split; [now left|]. now exists s.
    + apply Hrest. intros (s' & [= <-] & Hc & _). congruence.
Qed.

Lemma check_arguments_offending (all_args : list pyval) (w : World) (arg : pyval) :
  In arg all_args -> offending w arg ->
  exists s, check_arguments all_args w
            = (Raise (PermissionError (access_denied s)), w)
            /\ In (PStr s) all_args /\ offending w (PStr s).
Proof.
  intros Hin Hoff. destruct (check_arguments_cases all_args w) as [[_ Hall]|H].
  - now destruct (Hall arg Hin).
  - exact H.
Qed.

Lemma security_check_call (func : pyfunc) args kwargs (w : World) :
  fn_call (security_check func) args kwargs w =
  match check_arguments (args ++ map snd kwargs) w with
  | (Return _, w') => fn_call func args kwargs w'
  | (Raise e, w') => (Raise e, w')
  end.
Proof. reflexivity. Qed.

(** A call with an offending argument is refused, whatever the function. *)
Lemma gate_refuses args kwargs (w : World) (arg : pyval) :
  In arg (args ++ map snd kwargs) -> offending w arg ->
  exists s, In (PStr s) (args ++ map snd kwargs) /\ offending w (PStr s) /\
    forall func, fn_call (security_check func) args kwargs w
                 = (Raise (PermissionError (access_denied s)), w).
Proof.
  intros Hin Hoff.
  destruct (check_arguments_offending _ w arg Hin Hoff) as (s & Hr & Hs & Hso).
  exists s. repeat split; try assumption.
  intros func. now rewrite security_check_call, Hr.
Qed.

(* ===================================================================== *)
(** * The sandbox predicate *)
(* ===================================================================== *)

(** The sandbox root is accepted, from every working directory. *)
Lemma validate_path_root (w : World) : validate_path "/data" w = true.
Proof. reflexivity. Qed.

(** A traversal out of the root is normalised away by [abspath] and
    refused. *)
Lemma validate_path_traversal (w : World) : validate_path "/data/../etc" w = false.
Proof. reflexivity. Qed.

(** The empty string stands for the working directory: it is refused
    when the process runs outside [/data]. *)
Lemma validate_path_empty : validate_path "" app_world = false.
Proof. reflexivity. Qed.

(** C1 (the code departs from the claim).  [validate_path] is claimed to
    hold exactly when the canonical absolute form of the path is [/data]
    or a descendant of it.  The code tests the canonical form with
    [startswith("/data")]: the absolute path [/data_evil/x] is its own
    canonical form, it is neither the root nor below it, and
    [validate_path] accepts it, from every working directory. *)
Theorem validate_path_accepts_prefix_sibling (w : World) :
  PosixPath.abspath "/data_evil/x" w = Return "/data_evil/x"
  /\ inside_root "/data_evil/x" = false
  /\ validate_path "/data_evil/x" w = true.
Proof. repeat split; reflexivity. Qed.

(** Where the loop raises, it raises for the first offending argument:
    the arguments before it do not offend, and the failure is the denial
    of that argument. *)
Lemma check_arguments_raise_first (all_args : list pyval) (w w' : World) (e : exn) :
  check_arguments all_args w = (Raise e, w') ->
  exists before s rest,
    all_args = before ++ PStr s :: rest
    /\ (forall a, In a before -> ~ offending w a)
    /\ PyStr.contains PosixPath.sep s = true
    /\ validate_path s w = false
    /\ e = PermissionError (access_denied s)
    /\ w' = w.
Proof.
  induction all_args as [|arg tail IH]; [discriminate|].
  rewrite check_arguments_cons. intros Hraise.
  assert (Hskip : ~ offending w arg ->
            check_arguments tail w = (Raise e, w') ->
            exists before s rest,
              arg :: tail = before ++ PStr s :: rest
              /\ (forall a, In a before -> ~ offending w a)
              /\ PyStr.contains PosixPath.sep s = true
              /\ validate_path s w = false
              /\ e = PermissionError (access_denied s)
              /\ w' = w).
  { intros Harg Htail.
    destruct (IH Htail) as (before & s & rest & -> & Hbefore & Hsep & Hval & He & Hw).
    exists (arg :: before), s, rest. repeat split; try assumption.
    intros a [<-|Ha]; [exact Harg | now apply Hbefore]. }
  destruct arg as [ | | s | | | ]; try (apply Hskip; [intros (s' & [=] & _) | exact Hraise]).
  destruct (PyStr.contains PosixPath.sep s) eqn:Hsep; cbn [andb] in Hraise.
  - destruct (validate_path s w) eqn:Hval; cbn [negb] in Hraise.
    + apply Hskip; [|exact Hraise].
      intros (s' & [= <-] & _ & H). rewrite Hval in H. discriminate.
    + injection Hraise as <- <-. exists [], s, tail.
      repeat split; try assumption. intros a [].
  - apply Hskip; [|exact Hraise].
    intros (s' & [= <-] & H & _). rewrite Hsep in H. discriminate.
Qed.

(* ===================================================================== *)
(** * The security gate *)
(* ===================================================================== *)

(** C2.  If some argument of a call to a wrapped handler is a string that
    holds the path separator and fails the sandbox predicate, the call
    raises [PermissionError] and leaves the world as it was: the body of
    the handler, whichever it is, has not run and nothing was written. *)
Theorem security_check_rejects_before_body
    (args : list pyval) (kwargs : list (string * pyval)) (w : World) (s : string) :
  In (PStr s) (args ++ map snd kwargs) ->
  PyStr.contains PosixPath.sep s = true ->
  validate_path s w = false ->
  exists s', In (PStr s') (args ++ map snd kwargs)
    /\ PyStr.contains PosixPath.sep s' = true
    /\ validate_path s' w = false
    /\ forall func : pyfunc,
         fn_call (security_check func) args kwargs w
         = (Raise (PermissionError (access_denied s')), w).
Proof.
  intros Hin Hsep Hval.
  destruct (gate_refuses args kwargs w (PStr s) Hin) as (s' & Hin' & Hoff & Hcall).
  { now exists s. }
  destruct Hoff as (s'' & [= <-] & Hsep' & Hval').
  exists s'. repeat split; assumption.
Qed.

Lemma security_check_rejects_before_body_witness :
  exists s', In (PStr s') ([PStr "/data/in.json"; PStr "/etc/passwd"] ++ map snd no_kwargs)
    /\ PyStr.contains PosixPath.sep s' = true
    /\ validate_path s' app_world = false
    /\ forall func : pyfunc,
         fn_call (security_check func) [PStr "/data/in.json"; PStr "/etc/passwd"] [] app_world
         = (Raise (PermissionError (access_denied s')), app_world).
Proof.
  apply (security_check_rejects_before_body
           [PStr "/data/in.json"; PStr "/etc/passwd"] [] app_world "/etc/passwd").
  - simpl. right. left. reflexivity.
  - reflexivity.
  - reflexivity.
Defined.

(** The spy of the specification: its log is empty after a refused call. *)
Lemma spy_not_called :
  fn_call (security_check (spy_func "spy")) [PStr "/data/in.json"]
          [("save_path", PStr "/etc/passwd")] app_world
  = (Raise (PermissionError "Access denied: /etc/passwd is outside /data directory"),
     app_world)
  /\ call_log app_world = [].
Proof. split; reflexivity. Qed.

(** C7.  When no string argument that holds the separator fails the
    sandbox predicate, the wrapped handler is the handler: same
    arguments in, same outcome and same world out. *)
Theorem security_check_transparent
    (func : pyfunc) (args : list pyval) (kwargs : list (string * pyval)) (w : World) :
  (forall s, In (PStr s) (args ++ map snd kwargs) ->
             PyStr.contains PosixPath.sep s = true ->
             validate_path s w = true) ->
  fn_call (security_check func) args kwargs w = fn_call func args kwargs w.
Proof.
  intros Hok. rewrite security_check_call.
  destruct (check_arguments_cases (args ++ map snd kwargs) w)
    as [[-> _]|(s & _ & Hin & s' & [= <-] & Hsep & Hval)].
  - reflexivity.
  - rewrite (Hok s Hin Hsep) in Hval. discriminate.
Qed.

Lemma security_check_transparent_witness :
  fn_call (security_check (spy_func "spy")) [PStr "/data/in.json"; PInt 3]
          [("save_path", PStr "/data/out.json")] app_world
  = fn_call (spy_func "spy") [PStr "/data/in.json"; PInt 3]
            [("save_path", PStr "/data/out.json")] app_world.
Proof.
  apply (security_check_transparent (spy_func "spy")).
  intros s [H|[H|[H|[]]]] _; inversion H; reflexivity.
Defined.

(** C8 (amended).  A denial of the gate carries the message
    [Access denied: <arg> is outside /data directory] for the first
    offending argument, positional arguments before keyword arguments,
    each from left to right: no argument before it offends, and the
    message names that argument and the sandbox root.  The failure is the
    same for every handler; the handler is not named. *)
Theorem denial_names_argument
    (args : list pyval) (kwargs : list (string * pyval)) (w w' : World) (e : exn) :
  check_arguments (args ++ map snd kwargs) w = (Raise e, w') ->
  exists before s rest,
    args ++ map snd kwargs = before ++ PStr s :: rest
    /\ (forall a, In a before -> ~ offending w a)
    /\ PyStr.contains PosixPath.sep s = true
    /\ validate_path s w = false
    /\ e = PermissionError ("Access denied: " +:+ s +:+ " is outside /data directory")
    /\ PyStr.contains s (exn_str e) = true
    /\ forall func : pyfunc,
         fn_call (security_check func) args kwargs w = (Raise e, w).
Proof.
  intros Hraise.
  destruct (check_arguments_raise_first _ _ _ _ Hraise)
    as (before & s & rest & Hsplit & Hbefore & Hsep & Hval & -> & ->).
  exists before, s, rest. repeat split; try assumption.
  - apply contains_middle.
  - intros func. now rewrite security_check_call, Hraise.
Qed.

Lemma denial_names_argument_witness :
  exists before s rest,
    [PStr "/data/in.json"; PStr "/etc/passwd"] ++ map snd [("out", PStr "/etc/shadow")]
    = before ++ PStr s :: rest
    /\ (forall a, In a before -> ~ offending app_world a)
    /\ PyStr.contains PosixPath.sep s = true
    /\ validate_path s app_world = false
    /\ PermissionError (access_denied "/etc/passwd")
       = PermissionError ("Access denied: " +:+ s +:+ " is outside /data directory")
    /\ PyStr.contains s (exn_str (PermissionError (access_denied "/etc/passwd"))) = true
    /\ forall func : pyfunc,
         fn_call (security_check func) [PStr "/data/in.json"; PStr "/etc/passwd"]
                 [("out", PStr "/etc/shadow")] app_world
         = (Raise (PermissionError (access_denied "/etc/passwd")), app_world).
Proof.
  apply (denial_names_argument [PStr "/data/in.json"; PStr "/etc/passwd"]
           [("out", PStr "/etc/shadow")] app_world app_world).
  reflexivity.
Defined.

(** The claim of C8 fails on [fetch_api_data]: the gate refuses the call,
    and the message of the failure does not hold the name of the
    handler. *)
Lemma denial_omits_handler_name :
  let f := @fetch_api_data recording_bodies in
  let args := [PStr "/data/in.json"; PStr "/etc/passwd"] in
  exists e,
    check_arguments (args ++ map snd no_kwargs) app_world = (Raise e, app_world)
    /\ fn_call f args [] app_world = (Raise e, app_world)
    /\ fn_name f = "fetch_api_data"
    /\ ~ (PyStr.contains "/etc/passwd" (exn_str e) = true
          /\ PyStr.contains (fn_name f) (exn_str e) = true).
Proof.
  exists (PermissionError "Access denied: /etc/passwd is outside /data directory").
  repeat split; try reflexivity.
  intros [_ H]. vm_compute in H. discriminate.
Qed.

(** The gate also tests strings that are not file paths.  A URL or a
    query that holds ['/'] and whose [abspath] does not start with the
    text [/data] makes the call raise [PermissionError] with the world
    untouched: for [fetch_api_data] no request is sent and no file
    written, and the same holds for any wrapped handler and any position
    of the argument. *)
Theorem gate_refuses_urls (w : World) (url : string) :
  PyStr.contains "/" url = true ->
  (forall abs_path, PosixPath.abspath url w = Return abs_path ->
                    PyStr.startswith abs_path "/data" = false) ->
  (forall (bodies : HandlerBodies) (save_path : pyval),
      fn_call fetch_api_data [PStr url; save_path] [] w
      = (Raise (PermissionError (access_denied url)), w))
  /\ (forall (func : pyfunc) args kwargs,
        In (PStr url) (args ++ map snd kwargs) ->
        exists s, fn_call (security_check func) args kwargs w
                  = (Raise (PermissionError (access_denied s)), w)).
Proof.
  intros Hsep Habs. apply validate_path_false_iff in Habs. split.
  - intros bodies save_path. unfold fetch_api_data.
    rewrite security_check_call.
    cbn [app map]. rewrite check_arguments_cons.
    change PosixPath.sep with "/". now rewrite Hsep, Habs.
  - intros func args kwargs Hin.
    destruct (gate_refuses args kwargs w (PStr url) Hin) as (s & _ & _ & Hcall).
    { now exists url. }
    exists s. apply Hcall.
Qed.

Lemma gate_refuses_urls_witness :
  fn_call (@fetch_api_data recording_bodies)
          [PStr "https://jsonplaceholder.typicode.com/todos/1"; PStr "/data/api.json"]
          [] app_world
  = (Raise (PermissionError
       "Access denied: https://jsonplaceholder.typicode.com/todos/1 is outside /data directory"),
     app_world).
Proof.
  apply (gate_refuses_urls app_world "https://jsonplaceholder.typicode.com/todos/1").
  - reflexivity.
  - intros abs_path H. vm_compute in H. injection H as <-. reflexivity.
Defined.

(** C10 (the code departs from the claim).  A URL that holds ['/'] and
    whose absolute form does not lie under [/data] is claimed to make
    the call raise [PermissionError] before the body runs.  The gate
    tests the absolute form with [startswith("/data")], the defect of
    C1: in a process whose working directory is [/data_evil] the URL
    [https://example.com/a] becomes [/data_evil/https:/example.com/a],
    which is neither the root nor below it, and the gate lets the call
    through: [fetch_api_data] is its undecorated body there, the request
    is sent and the file written.  The same holds, from every working
    directory, for an argument spelled [/data_evil/x]. *)
Theorem gate_passes_url_beside_root :
  let url := "https://example.com/a" in
  let args := [PStr url; PStr "/data/out.json"] in
  PyStr.contains "/" url = true
  /\ PosixPath.abspath url sibling_world = Return "/data_evil/https:/example.com/a"
  /\ inside_root "/data_evil/https:/example.com/a" = false
  /\ (forall bodies : HandlerBodies,
        fn_call fetch_api_data args [] sibling_world
        = fn_call fetch_api_data_def args [] sibling_world)
  /\ fn_call (@fetch_api_data recording_bodies) args [] sibling_world
     = (Return (PBool true),
        mkWorld (Some "/data_evil")
                (<["/data/out.json" := RegularFile ("body of " +:+ url)]> ∅)
                [] [url] [])
  /\ inside_root "/data_evil/x" = false
  /\ (forall (func : pyfunc) (w : World),
        fn_call (security_check func) [PStr "/data_evil/x"] [] w
        = fn_call func [PStr "/data_evil/x"] [] w).
Proof.
  cbn zeta. repeat split.
Qed.

(* ===================================================================== *)
(** * The transcription handler *)
(* ===================================================================== *)

(** What a call of the undecorated [transcribe_audio] can come to: a
    boolean, the [TypeError] of a call that does not fit the parameters,
    or an exception outside [Exception] passing through. *)
Lemma transcribe_audio_def_outcomes
    (bodies : HandlerBodies) (args : list pyval) (kwargs : list (string * pyval))
    (w : World) :
  (exists b, fst (fn_call transcribe_audio_def args kwargs w) = Return (PBool b))
  \/ (exists m, fst (fn_call transcribe_audio_def args kwargs w) = Raise (TypeError m))
  \/ (exists e, fst (fn_call transcribe_audio_def args kwargs w) = Raise e
                /\ is_Exception e = false).
Proof.
  cbn [transcribe_audio_def fn_call].
  destruct (bind_params _ args kwargs) as [[|a [|o [|x bound]]]|];
    try (right; left; eexists; reflexivity).
  unfold try_except_Exception, bind, ret, print.
  destruct (transcribe_and_save a o w) as [[[]|e] w1]; cbn.
  - left. now exists true.
  - destruct (is_Exception e) eqn:He; cbn.
    + left. now exists false.
    + right. right. now exists e.
Qed.

(** C6 (the code departs from the claim).  [transcribe_audio] is claimed
    to give a not-implemented signal for every input; [evaluate_B8] of
    the repository's own check expects [NotImplementedError].  The code
    never raises it: the function has a body, and its [except Exception]
    turns every failure of that body, [NotImplementedError] included,
    into the result [False].  The check [evaluate_B8] calls a name [B8]
    that [tasksB] does not define, and returns [False]. *)
Theorem transcribe_audio_never_not_implemented
    (bodies : HandlerBodies) (args : list pyval) (kwargs : list (string * pyval))
    (w : World) :
  (forall m, fst (fn_call transcribe_audio args kwargs w)
             <> Raise (NotImplementedError m))
  /\ fst (evaluate_B8 evaluateB_globals w) = Return false.
Proof.
  split.
  - intros m. unfold transcribe_audio. rewrite security_check_call.
    destruct (check_arguments_cases (args ++ map snd kwargs) w)
      as [[-> _]|(s & -> & _)]; [|discriminate].
    destruct (transcribe_audio_def_outcomes bodies args kwargs w)
      as [[b ->]|[[m' ->]|(e & -> & He)]]; try discriminate.
    intros [= ->]. discriminate.
  - reflexivity.
Qed.

(** With the [openai] module missing, a call on two paths of the sandbox
    returns [False] and prints the error. *)
Lemma transcribe_audio_returns_false :
  fn_call (@transcribe_audio recording_bodies)
          [PStr "/data/audio.mp3"; PStr "/data/out.txt"] [] app_world
  = (Return (PBool false),
     mkWorld (cwd app_world) (files app_world)
             ["Error transcribing audio: No module named 'openai'"] [] []).
Proof. reflexivity. Qed.

(* ===================================================================== *)
(** * The reader [read_file] *)
(* ===================================================================== *)

(** What [open] and [read] can come to: the text of the file, or an
    [Exception]; the world is not changed. *)
Lemma open_read_cases (path : string) (w : World) :
  (exists text, open_read path w = (Return text, w))
  \/ (exists e, open_read path w = (Raise e, w) /\ is_Exception e = true).
Proof.
  unfold open_read.
  destruct (has_nul path); [right; now eexists|].
  destruct (String.eqb path "" || unreachable path w); [right; now eexists|].
  destruct (below_file (files w) path); [right; now eexists|].
  destruct (files w !! path) as [[text| | |complaint]|];
    [left; now eexists | right; now eexists ..].
Qed.

(** C3 (amended).  [read_file] applies no sandbox check.  It rewrites
    every [/data/] in the path into [data/] and opens the result.  What
    [open] and [read] return is served as it is, wherever the file lies;
    when they raise [FileNotFoundError] the answer is the not-found
    failure (404) that names the requested path; when they raise any
    other [Exception] (a directory, a path below a file, a file that may
    not be opened, a NUL in the path, bytes that are not text) the answer
    is the failure 500 with the text of the exception.  No answer is a
    denial, and the world is unchanged. *)
Theorem read_file_unguarded (path : string) (w : World) :
  let opened := PyStr.replace "/data/" "data/" path in
  (forall text w',
      open_read opened w = (Return text, w') ->
      read_file path w = (Return (mkResponse text "text/plain"), w'))
  /\ (forall e w',
        open_read opened w = (Raise e, w') ->
        is_FileNotFoundError e = true ->
        read_file path w
        = (Raise (HTTPException 404 ("File not found: " +:+ path)), w'))
  /\ (forall e w',
        open_read opened w = (Raise e, w') ->
        is_FileNotFoundError e = false ->
        is_Exception e = true ->
        read_file path w = (Raise (HTTPException 500 (exn_str e)), w'))
  /\ (forall e, fst (read_file path w) = Raise e ->
        exists code detail, e = HTTPException code detail /\ (code = 404 \/ code = 500))
  /\ snd (read_file path w) = w
  /\ (forall text,
        has_nul opened = false ->
        String.eqb opened "" || unreachable opened w = false ->
        below_file (files w) opened = false ->
        files w !! opened = Some (RegularFile text) ->
        read_file path w = (Return (mkResponse text "text/plain"), w)).
Proof.
  cbn zeta. unfold read_file. repeat split.
  - intros text w' ->. reflexivity.
  - intros e w' -> ->. reflexivity.
  - intros e w' -> -> ->. reflexivity.
  - destruct (open_read_cases (PyStr.replace "/data/" "data/" path) w)
      as [[text ->]|(e & -> & He)]; [discriminate|].
    rewrite He. destruct (is_FileNotFoundError e); intros e' [= <-];
      eexists _, _; (split; [reflexivity|]); [now left | now right].
  - destruct (open_read_cases (PyStr.replace "/data/" "data/" path) w)
      as [[text ->]|(e & -> & He)]; [reflexivity|].
    rewrite He. now destruct (is_FileNotFoundError e).
  - intros text Hnul Hreach Hbelow Hfile. unfold open_read.
    now rewrite Hnul, Hreach, Hbelow, Hfile.
Qed.

Lemma read_file_unguarded_witness :
  read_file "/etc/passwd" app_world
  = (Return (mkResponse "root:x:0:0" "text/plain"), app_world)
  /\ read_file "/data/missing.txt" app_world
     = (Raise (HTTPException 404 "File not found: /data/missing.txt"), app_world)
  /\ read_file "/etc/passwd/x" app_world
     = (Raise (HTTPException 500 "[Errno 20] Not a directory: '/etc/passwd/x'"),
        app_world).
Proof.
  split; [|split].
  - apply (proj1 (read_file_unguarded "/etc/passwd" app_world)). reflexivity.
  - apply (proj1 (proj2 (read_file_unguarded "/data/missing.txt" app_world))
             (FileNotFoundError
                "[Errno 2] No such file or directory: 'data/missing.txt'"));
      reflexivity.
  - apply (proj1 (proj2 (proj2 (read_file_unguarded "/etc/passwd/x" app_world)))
             (OtherError "NotADirectoryError"
                "[Errno 20] Not a directory: '/etc/passwd/x'"));
      reflexivity.
Defined.

(** The claim of C3 fails on [/etc/passwd]: the path is outside the
    sandbox, and [read_file] returns the contents of the file. *)
Lemma read_file_serves_outside_sandbox :
  validate_path "/etc/passwd" app_world = false
  /\ read_file "/etc/passwd" app_world
     = (Return (mkResponse "root:x:0:0" "text/plain"), app_world)
  /\ ~ (exists code detail,
          fst (read_file "/etc/passwd" app_world) = Raise (HTTPException code detail)).
Proof.
  repeat split; try reflexivity.
  intros (code & detail & H). vm_compute in H. discriminate.
Qed.

(* ===================================================================== *)
(** * The dispatcher [run_task] *)
(* ===================================================================== *)

Lemma resolve_cons (spec : OperationSpec) (reg : list OperationSpec) (d : string) :
  resolve (spec :: reg) d
  = if spec_matches d spec then Some spec else resolve reg d.
Proof. reflexivity. Qed.

(** The resolution returns a spec exactly when the spec matches and no
    spec registered before it does. *)
Lemma resolve_some_iff (reg : list OperationSpec) (d : string) (spec : OperationSpec) :
  resolve reg d = Some spec <->
  exists before after,
    reg = before ++ spec :: after
    /\ spec_matches d spec = true
    /\ List.forallb (fun s => negb (spec_matches d s)) before = true.
Proof.
  induction reg as [|first reg IH].
  - split; [discriminate|]. intros ([|? ?] & after & [=] & _).
  - rewrite resolve_cons. destruct (spec_matches d first) eqn:Hfirst; split.
    + intros [= <-]. now exists [], reg.
    + intros ([|b before] & after & Heq & Hm & Hnone).
      * injection Heq as <- _. reflexivity.
      * injection Heq as <- _. cbn in Hnone. rewrite Hfirst in Hnone. discriminate.
    + intros H. apply IH in H as (before & after & -> & Hm & Hnone).
      exists (first :: before), after. cbn. now rewrite Hfirst.
    + intros ([|b before] & after & Heq & Hm & Hnone).
      * injection Heq as <- _. congruence.
      * injection Heq as <- ->. apply IH. exists before, after.
        cbn in Hnone. rewrite Hfirst in Hnone. now repeat split.
Qed.

Lemma resolve_none_iff (reg : list OperationSpec) (d : string) :
  resolve reg d = None <->
  List.forallb (fun s => negb (spec_matches d s)) reg = true.
Proof.
  induction reg as [|first reg IH]; [easy|].
  rewrite resolve_cons. cbn. destruct (spec_matches d first); cbn; [easy | exact IH].
Qed.

(** The [if]/[elif] chain of [run_task] is the resolution over
    [registry], followed by the call of the resolved operation. *)
Lemma run_task_try_dispatch (tasks : TasksA) (task : option string) (w : World) :
  run_task_try task w
  = dispatch_resolved
      (resolve registry (PyStr.strip (match task with Some t => t | None => "" end))) w.
Proof.
  unfold run_task_try, resolve, registry, spec_matches.
  set (d := PyStr.strip _).
  cbn [List.find List.forallb op_markers]. rewrite !andb_true_r.
  repeat match goal with
         | |- context [PyStr.contains ?m d] =>
             destruct (PyStr.contains m d); cbn [andb]; try reflexivity
         end.
Qed.


(** C5.  Resolution is a function of the trimmed description alone: the
    [if]/[elif] chain of [run_task] runs the operation that the
    resolution over [registry] returns, whatever the world; the
    resolution returns the first spec, in registration order, whose
    markers all occur in the description, and none when no spec
    matches.  So a description resolves to the same operation every
    time, and of two matching specs the first registered wins. *)
Theorem resolution_first_match :
  (forall (tasks : TasksA) (task : option string) (w : World),
      run_task_try task w
      = dispatch_resolved
          (resolve registry
             (PyStr.strip (match task with Some t => t | None => "" end))) w)
  /\ (forall reg d spec,
        resolve reg d = Some spec <->
        exists before after,
          reg = before ++ spec :: after
          /\ List.forallb (fun marker => PyStr.contains marker d) (op_markers spec) = true
          /\ List.forallb (fun s => negb (spec_matches d s)) before = true)
  /\ (forall reg d,
        resolve reg d = None <->
        List.forallb (fun s => negb (spec_matches d s)) reg = true).
Proof.
  split; [exact run_task_try_dispatch|].
  split; [exact resolve_some_iff | exact resolve_none_iff].
Qed.

(** A description with the markers of both [A2] and [A5] resolves to
    [A2], which is registered first. *)
Lemma resolution_tie_break :
  let d := "  Format /data/format.md and write /data/logs-recent.txt " in
  spec_matches (PyStr.strip d) (mkSpec ["format.md"] A2) = true
  /\ spec_matches (PyStr.strip d) (mkSpec ["logs-recent.txt"] A5) = true
  /\ resolve registry (PyStr.strip d) = Some (mkSpec ["format.md"] A2).
Proof. repeat split; reflexivity. Qed.


(** A description that no spec matches is answered with the 400 of the
    unknown task, and no operation runs. *)
Lemma run_task_unknown (tasks : TasksA) (task : option string) (w : World) :
  resolve registry (PyStr.strip (match task with Some t => t | None => "" end)) = None ->
  run_task task w
  = (Raise (HTTPException 400 (exn_str (HTTPException 400 "Unknown task"))), w).
Proof.
  intros Hnone. unfold run_task, try_except_Exception.
  now rewrite run_task_try_dispatch, Hnone.
Qed.


(* ===================================================================== *)
(** * The endpoint [filter_csv] *)
(* ===================================================================== *)

Lemma dot_is_special (c : ascii) :
  Regex.is_special c = false -> Ascii.eqb c "." = false.
Proof.
  destruct (Ascii.eqb_spec c ".") as [->|]; [discriminate | reflexivity].
Qed.

(** On a pattern of ordinary characters, matching at the start is the
    prefix test. *)
Lemma match_here_literal (pat s : string) :
  Regex.is_literal pat = true -> Regex.match_here pat s = String.prefix pat s.
Proof.
  revert s. induction pat as [|p pat IH]; intros s Hlit.
  - now destruct s.
  - cbn in Hlit. apply andb_true_iff in Hlit as [Hp Hrest].
    apply negb_true_iff in Hp.
    destruct s as [|c s]; [reflexivity|]. cbn.
    rewrite (dot_is_special p Hp), (IH s Hrest).
    destruct (ascii_dec p c) as [->|Hne].
    + now rewrite Ascii.eqb_refl.
    + apply Ascii.eqb_neq in Hne. now rewrite Hne.
Qed.

(** On a pattern of ordinary characters, searching is substring
    containment. *)
Lemma search_literal (pat s : string) :
  Regex.is_literal pat = true -> Regex.search pat s = PyStr.contains pat s.
Proof.
  intros Hlit. induction s as [|c s IH]; cbn.
  - now rewrite match_here_literal.
  - now rewrite match_here_literal, IH.
Qed.

Lemma literal_in_fragment (pat : string) :
  Regex.is_literal pat = true -> Regex.in_fragment pat = true.
Proof.
  unfold Regex.is_literal, Regex.in_fragment.
  induction pat as [|p pat IH]; [reflexivity|].
  cbn [Regex.all_chars]. intros H. apply andb_true_iff in H as [Hp Hrest].
  now rewrite Hp, (IH Hrest).
Qed.

(** Selecting with a mask computed row by row is filtering. *)
Lemma select_by_row_test {A : Type} (test : A -> bool) (l : list A) :
  map fst (List.filter snd (combine l (map test l))) = List.filter test l.
Proof.
  induction l as [|x l IH]; [reflexivity|]. cbn.
  destruct (test x); cbn; now rewrite IH.
Qed.

(** One [contains] rule on an object column, with a pattern of the
    fragment, keeps the rows in which the pattern is found. *)
Lemma apply_filter_contains (lib : Library) (df : DataFrame) (col : string)
    (v : scalar) (i : nat) :
  column_position col (columns df) = Some (i, DObject) ->
  Regex.in_fragment (py_str v) = true ->
  apply_filter df (mkRule col v (Some "contains"))
  = Return (mkFrame (columns df)
              (List.filter (fun row => cell_search (py_str v) (nth i row CNaN))
                           (rows df))).
Proof.
  intros Hcol Hfrag.
  unfold apply_filter, get_series, str_contains, compile, select_rows.
  cbn [operator column value String.eqb Ascii.eqb Bool.eqb].
  rewrite Hcol, Hfrag. cbn. rewrite map_map. f_equal. f_equal.
  apply (select_by_row_test (fun row => cell_search (py_str v) (nth i row CNaN))).
Qed.

(** One [contains] rule on an object column, with a pattern that
    compiles, keeps the rows in which the compiled pattern finds
    something; with a pattern that does not compile it fails as the
    compilation does. *)
Lemma apply_filter_contains_compiled (lib : Library) (df : DataFrame) (col : string)
    (v : scalar) (i : nat) :
  column_position col (columns df) = Some (i, DObject) ->
  apply_filter df (mkRule col v (Some "contains"))
  = match compile (py_str v) with
    | Return found =>
        Return (mkFrame (columns df)
                  (List.filter (fun row => cell_found found (nth i row CNaN))
                               (rows df)))
    | Raise e => Raise e
    end.
Proof.
  intros Hcol.
  unfold apply_filter, get_series, str_contains, select_rows.
  cbn [operator column value String.eqb Ascii.eqb Bool.eqb].
  rewrite Hcol. destruct (compile (py_str v)) as [found|e]; [|reflexivity].
  cbn. rewrite map_map. f_equal. f_equal.
  apply (select_by_row_test (fun row => cell_found found (nth i row CNaN))).
Qed.

(** C9 (amended).  [filter_csv] hands [str(value)] to pandas'
    [str.contains], which reads it as a regular expression.  For a
    request with one [contains] rule on a text column of the table read
    from an accepted path: when the expression compiles, the answer is
    200 with the rows, in their original order, whose value in the column
    is text in which the expression is found; when it does not compile,
    the answer is 500 with the text of the failure.  An expression of
    ordinary characters and dots always compiles, a dot standing for any
    character but a newline; when the value has none of the characters
    [. ^ $ * + ? { } [ ] \ | ( )], the rows are exactly those whose text
    in the column holds the value as a substring. *)
Theorem filter_csv_contains (lib : Library) (path col : string) (v : scalar)
    (w : World) (df : DataFrame) (i : nat) :
  validate_path path w = true ->
  read_csv path w = Return df ->
  column_position col (columns df) = Some (i, DObject) ->
  let request := mkPayload path (Some [mkRule col v (Some "contains")]) in
  let answer (test : cell -> bool) :=
    Return (mkFlask
      (RecordsBody
         (to_dict_records
            (mkFrame (columns df)
               (List.filter (fun row => test (nth i row CNaN)) (rows df)))))
      200) in
  (forall found,
      compile (py_str v) = Return found ->
      filter_csv request w = answer (cell_found found))
  /\ (forall e,
        compile (py_str v) = Raise e ->
        is_Exception e = true ->
        filter_csv request w = Return (mkFlask (ErrorBody (exn_str e)) 500))
  /\ (Regex.in_fragment (py_str v) = true ->
      filter_csv request w = answer (cell_search (py_str v)))
  /\ (Regex.is_literal (py_str v) = true ->
      filter_csv request w = answer (cell_contains (py_str v))).
Proof.
  intros Hpath Hread Hcol. cbn zeta.
  assert (Hrun : filter_csv (mkPayload path (Some [mkRule col v (Some "contains")])) w
    = match compile (py_str v) with
      | Return found =>
          Return (mkFlask
            (RecordsBody
               (to_dict_records
                  (mkFrame (columns df)
                     (List.filter (fun row => cell_found found (nth i row CNaN))
                                  (rows df)))))
            200)
      | Raise e =>
          if is_Exception e then Return (mkFlask (ErrorBody (exn_str e)) 500)
          else Raise e
      end).
  { unfold filter_csv, filter_csv_try.
    cbn [csv_path filters]. rewrite Hpath, Hread. cbn [negb apply_filters].
    rewrite (apply_filter_contains_compiled lib df col v i Hcol).
    now destruct (compile (py_str v)). }
  assert (Hfrag : Regex.in_fragment (py_str v) = true ->
            compile (py_str v) = Return (Regex.search (py_str v)))
    by (intros Hin; unfold compile; now rewrite Hin).
  rewrite Hrun. repeat split.
  - now intros found ->.
  - now intros e -> ->.
  - intros Hin. now rewrite (Hfrag Hin).
  - intros Hlit. rewrite (Hfrag (literal_in_fragment _ Hlit)).
    do 5 f_equal. apply filter_ext. intros row.
    destruct (nth i row CNaN); cbn; try reflexivity.
    now apply search_literal.
Qed.

Lemma filter_csv_contains_witness :
  filter_csv (lib := test_library)
    (mkPayload "/data/test.csv" (Some [mkRule "name" (SStr "li") (Some "contains")]))
    app_world
  = Return (mkFlask
      (RecordsBody
         (to_dict_records
            (mkFrame (columns test_frame)
               (List.filter (fun row => cell_contains "li" (nth 0 row CNaN))
                            (rows test_frame)))))
      200)
  /\ filter_csv (lib := strict_library test_library)
       (mkPayload "/data/test.csv" (Some [mkRule "name" (SStr "(") (Some "contains")]))
       app_world
     = Return (mkFlask
         (ErrorBody "missing ), unterminated subpattern at position 0") 500).
Proof.
  split.
  - apply (proj2 (proj2 (proj2
             (filter_csv_contains test_library "/data/test.csv" "name" (SStr "li")
                app_world test_frame 0 eq_refl eq_refl eq_refl)))).
    reflexivity.
  - apply (proj1 (proj2
             (filter_csv_contains (strict_library test_library) "/data/test.csv" "name"
                (SStr "(") app_world test_frame 0 eq_refl eq_refl eq_refl))
             (OtherError "error" "missing ), unterminated subpattern at position 0"));
      reflexivity.
Defined.

(** The rows of the witness: Alice and Charlie, in that order. *)
Lemma filter_csv_test_rows :
  filter_csv (lib := test_library)
    (mkPayload "/data/test.csv" (Some [mkRule "name" (SStr "li") (Some "contains")]))
    app_world
  = Return (mkFlask
      (RecordsBody [ [("name", CStr "Alice"); ("age", CInt 25)];
                     [("name", CStr "Charlie"); ("age", CInt 35)] ])
      200).
Proof. reflexivity. Qed.

(** The claim of C9 fails on the value ["."]: no name of the test table
    holds a dot, and [filter_csv] returns every row. *)
Lemma filter_csv_dot_matches_all :
  let request :=
    mkPayload "/data/test.csv" (Some [mkRule "name" (SStr ".") (Some "contains")]) in
  List.filter (fun row => cell_contains "." (nth 0 row CNaN)) (rows test_frame) = []
  /\ filter_csv (lib := test_library) request app_world
     = Return (mkFlask (RecordsBody (to_dict_records test_frame)) 200)
  /\ filter_csv (lib := test_library) request app_world
     <> Return (mkFlask
          (RecordsBody
             (to_dict_records
                (mkFrame (columns test_frame)
                   (List.filter (fun row => cell_contains "." (nth 0 row CNaN))
                                (rows test_frame)))))
          200).
Proof.
  repeat split; try reflexivity.
  intros H. vm_compute in H. discriminate.
Qed.

(* ===================================================================== *)
(** * Further properties of the sandbox predicate and of the gate *)
(* ===================================================================== *)

(** X1.  [validate_path] accepts exactly the paths whose [abspath] is the
    root, lies below the root, or goes on after the text [/data] with a
    character other than the separator (as [/data_evil] or [/database]
    do). *)
Theorem validate_path_accepts_exactly (p : string) (w : World) :
  validate_path p w = true <->
  exists abs_path,
    PosixPath.abspath p w = Return abs_path
    /\ (inside_root abs_path = true
        \/ exists c rest, abs_path = "/data" +:+ String c rest /\ c <> "/"%char).
Proof.
  rewrite validate_path_true_iff. split.
  - intros (a & Ha & Hpre). exists a. split; [exact Ha|].
    now apply startswith_root_cases.
  - intros (a & Ha & Hcases). exists a. split; [exact Ha|].
    now apply startswith_root_cases.
Qed.

Lemma check_arguments_skip (before rest : list pyval) (w : World) :
  (forall a, In a before -> ~ offending w a) ->
  check_arguments (before ++ rest) w = check_arguments rest w.
Proof.
  induction before as [|a before IH]; intros Hok; [reflexivity|].
  cbn [app]. rewrite check_arguments_cons.
  assert (Hrest : check_arguments (before ++ rest) w = check_arguments rest w).
  { apply IH. intros b Hb. apply Hok. now right. }
  destruct a as [| | |s| |]; try exact Hrest.
  destruct (PyStr.contains PosixPath.sep s) eqn:Hsep; [|exact Hrest].
  destruct (validate_path s w) eqn:Hval; [exact Hrest|].
  destruct (Hok (PStr s)); [now left | now exists s].
Qed.

(** X4.  The denial names the first offending argument, positional arguments
    before keyword arguments, each from left to right: the arguments
    after it are not looked at. *)
Theorem denial_names_first_offender
    (func : pyfunc) (args : list pyval) (kwargs : list (string * pyval))
    (before rest : list pyval) (s : string) (w : World) :
  args ++ map snd kwargs = before ++ PStr s :: rest ->
  (forall a, In a before -> ~ offending w a) ->
  PyStr.contains PosixPath.sep s = true ->
  validate_path s w = false ->
  fn_call (security_check func) args kwargs w
  = (Raise (PermissionError (access_denied s)), w).
Proof.
  intros Hsplit Hbefore Hsep Hval.
  rewrite security_check_call, Hsplit, (check_arguments_skip before _ w Hbefore).
  rewrite check_arguments_cons, Hsep, Hval. reflexivity.
Qed.

Lemma denial_names_first_offender_witness :
  fn_call (security_check (spy_func "spy"))
          [PStr "/data/in.json"; PStr "/etc/passwd"] [("out", PStr "/etc/shadow")]
          app_world
  = (Raise (PermissionError (access_denied "/etc/passwd")), app_world).
Proof.
  apply (denial_names_first_offender (spy_func "spy") _ _
           [PStr "/data/in.json"] [PStr "/etc/shadow"]).
  - reflexivity.
  - intros a [<-|[]] (s & [= <-] & _ & H). vm_compute in H. discriminate.
  - reflexivity.
  - reflexivity.
Defined.

(** X5.  Decorating twice is decorating once. *)
Theorem security_check_idempotent
    (func : pyfunc) (args : list pyval) (kwargs : list (string * pyval)) (w : World) :
  fn_call (security_check (security_check func)) args kwargs w
  = fn_call (security_check func) args kwargs w.
Proof.
  rewrite (security_check_call (security_check func)).
  destruct (check_arguments_cases (args ++ map snd kwargs) w)
    as [[Hpass _]|(s & Hr & _)].
  - now rewrite Hpass.
  - now rewrite security_check_call, Hr.
Qed.

(** X6.  The gate looks at the strings among the arguments themselves, and
    among those at the ones that hold the separator.  A call none of
    whose arguments is such a string goes through from every working
    directory: a bare name such as [passwd] or [..] is not tested, nor is
    a path held inside a tuple or a list. *)
Theorem gate_ignores_plain_names_and_nested_paths
    (func : pyfunc) (args : list pyval) (kwargs : list (string * pyval)) :
  (forall s, In (PStr s) (args ++ map snd kwargs) ->
             PyStr.contains PosixPath.sep s = false) ->
  forall w : World,
    fn_call (security_check func) args kwargs w = fn_call func args kwargs w.
Proof.
  intros Hplain w. rewrite security_check_call.
  destruct (check_arguments_cases (args ++ map snd kwargs) w)
    as [[-> _]|(s & _ & Hin & s' & [= <-] & Hsep & _)]; [reflexivity|].
  rewrite (Hplain s Hin) in Hsep. discriminate.
Qed.

Lemma gate_ignores_plain_names_and_nested_paths_witness :
  fn_call (security_check (spy_func "spy"))
          [PStr ".."; PTuple [PStr "/etc/passwd"]] [("out", PStr "passwd")] app_world
  = fn_call (spy_func "spy")
            [PStr ".."; PTuple [PStr "/etc/passwd"]] [("out", PStr "passwd")] app_world.
Proof.
  apply (gate_ignores_plain_names_and_nested_paths (spy_func "spy")).
  intros s [H|[H|[H|[]]]]; inversion H; reflexivity.
Defined.

(* ===================================================================== *)
(** * Further properties of the dispatcher *)
(* ===================================================================== *)

Lemma prefix_cons (c d : ascii) (m s : string) :
  String.prefix (String c m) (String d s)
  = Ascii.eqb c d && String.prefix m s.
Proof.
  cbn. destruct (ascii_dec c d) as [->|Hne].
  - now rewrite Ascii.eqb_refl.
  - apply Ascii.eqb_neq in Hne. now rewrite Hne.
Qed.

Lemma prefix_nil_r (m : string) :
  String.prefix m "" = String.eqb m "".
Proof. now destruct m. Qed.

(** A marker that ends with a visible character is no prefix of
    whitespace. *)
Lemma prefix_of_space (m ws : string) :
  ends_nonspace m = true -> all_space ws = true -> String.prefix m ws = false.
Proof.
  revert ws. induction m as [|c m IH]; intros ws Hend Hws; [discriminate|].
  destruct ws as [|x ws]; [reflexivity|].
  rewrite prefix_cons. cbn in Hws. apply andb_true_iff in Hws as [Hx Hws].
  destruct (Ascii.eqb_spec c x) as [->|]; [|reflexivity]. cbn [andb].
  destruct m as [|c' m']; [cbn in Hend; now rewrite Hx in Hend|].
  now apply IH.
Qed.

(** Whitespace after the text does not change whether such a marker is a
    prefix. *)
Lemma prefix_before_space (m a ws : string) :
  ends_nonspace m = true -> all_space ws = true ->
  String.prefix m (a +:+ ws) = String.prefix m a.
Proof.
  revert a. induction m as [|c m IH]; intros a Hend Hws; [discriminate|].
  destruct a as [|x a].
  - rewrite append_nil_l. now apply prefix_of_space.
  - rewrite append_cons, !prefix_cons. destruct (Ascii.eqb c x); [|reflexivity].
    cbn [andb]. destruct m as [|c' m']; [now destruct a, ws|].
    now apply IH.
Qed.

Lemma contains_of_space (m ws : string) :
  ends_nonspace m = true -> all_space ws = true -> PyStr.contains m ws = false.
Proof.
  intros Hend. induction ws as [|x ws IH]; intros Hws.
  - cbn. now destruct m.
  - rewrite contains_unfold, (prefix_of_space m _ Hend Hws).
    cbn in Hws. apply andb_true_iff in Hws as [_ Hws]. now apply IH.
Qed.

(** What [rstrip] removes is whitespace. *)
Lemma rstrip_decompose (t : string) :
  exists ws, t = PyStr.rstrip t +:+ ws /\ all_space ws = true.
Proof.
  induction t as [|x r (ws & Hr & Hws)]; [now exists ""|].
  cbn [PyStr.rstrip]. destruct (PyStr.rstrip r) as [|k kept] eqn:Hk.
  - rewrite append_nil_l in Hr. subst ws.
    destruct (PyStr.isspace x) eqn:Hx.
    + exists (String x r). split; [reflexivity|]. cbn. now rewrite Hx.
    + exists r. now split.
  - exists ws. split; [|exact Hws]. now rewrite append_cons, <- Hr.
Qed.

Lemma contains_lstrip (m t : string) :
  starts_nonspace m = true -> PyStr.contains m (PyStr.lstrip t) = PyStr.contains m t.
Proof.
  intros Hstart. destruct m as [|c m]; [discriminate|]. cbn in Hstart.
  induction t as [|x r IH]; [reflexivity|].
  cbn [PyStr.lstrip]. destruct (PyStr.isspace x) eqn:Hx; [|reflexivity].
  rewrite IH, (contains_unfold _ (String x r)), prefix_cons.
  destruct (Ascii.eqb_spec c x) as [->|]; [|reflexivity].
  now rewrite Hx in Hstart.
Qed.

Lemma contains_rstrip (m t : string) :
  ends_nonspace m = true -> PyStr.contains m (PyStr.rstrip t) = PyStr.contains m t.
Proof.
  intros Hend. induction t as [|x r IH]; [reflexivity|].
  destruct (rstrip_decompose r) as (ws & Hr & Hws).
  rewrite (contains_unfold m (String x r)), <- IH.
  cbn [PyStr.rstrip]. destruct (PyStr.rstrip r) as [|k kept] eqn:Hk.
  - rewrite append_nil_l in Hr. subst ws.
    assert (Hnil : PyStr.contains m "" = false) by (cbn; now destruct m).
    rewrite Hnil, orb_false_r.
    destruct (PyStr.isspace x) eqn:Hx.
    + rewrite Hnil. symmetry. apply prefix_of_space; [exact Hend|].
      cbn. now rewrite Hx.
    + rewrite contains_unfold, Hnil, orb_false_r.
      now rewrite <- (prefix_before_space m (String x "") r Hend Hws).
  - rewrite contains_unfold. f_equal.
    rewrite Hr, <- append_cons.
    symmetry. now apply prefix_before_space.
Qed.

Lemma contains_strip (m t : string) :
  starts_nonspace m = true -> ends_nonspace m = true ->
  PyStr.contains m (PyStr.strip t) = PyStr.contains m t.
Proof.
  intros Hs He. unfold PyStr.strip. now rewrite contains_rstrip, contains_lstrip.
Qed.

Lemma resolve_strip (reg : list OperationSpec) (d : string) :
  markers_trimmed reg = true -> resolve reg (PyStr.strip d) = resolve reg d.
Proof.
  induction reg as [|spec reg IH]; [reflexivity|].
  intros H. cbn in H. apply andb_true_iff in H as [Hspec Hreg].
  rewrite !resolve_cons, (IH Hreg).
  replace (spec_matches (PyStr.strip d) spec) with (spec_matches d spec); [reflexivity|].
  unfold spec_matches. induction (op_markers spec) as [|m ms IHm]; [reflexivity|].
  cbn in Hspec |- *. apply andb_true_iff in Hspec as [Hm Hms].
  apply andb_true_iff in Hm as [Hs He].
  now rewrite (contains_strip m d Hs He), (IHm Hms).
Qed.

(** X7.  Trimming the description changes nothing: no marker of [run_task]
    begins or ends with whitespace, so the operation that runs is the one
    resolved from the description as it was sent, padding included. *)
Theorem strip_never_changes_dispatch :
  (forall description, resolve registry (PyStr.strip description)
                       = resolve registry description)
  /\ (forall (tasks : TasksA) (description : string) (w : World),
        run_task_try (Some description) w
        = dispatch_resolved (resolve registry description) w).
Proof.
  assert (H : forall d, resolve registry (PyStr.strip d) = resolve registry d)
    by (intros d; now apply resolve_strip).
  split; [exact H|].
  intros tasks d w. now rewrite run_task_try_dispatch, H.
Qed.

(** X8.  A request runs the resolved operation and nothing else: the world
    after [run_task] is the world after that one call of [tasksA]; when no
    spec matches, no operation runs and the world stays as it was. *)
Theorem run_task_runs_one_operation
    (tasks : TasksA) (task : option string) (w : World) :
  let description := PyStr.strip (match task with Some t => t | None => "" end) in
  (resolve registry description = None -> snd (run_task task w) = w)
  /\ (forall spec, resolve registry description = Some spec ->
        snd (run_task task w) = snd (tasksA_call (op_task spec) w)).
Proof.
  cbn zeta. unfold run_task, try_except_Exception.
  rewrite run_task_try_dispatch. split.
  - intros ->. reflexivity.
  - intros [markers t] ->.
    unfold dispatch_resolved, run_and_report, bind, ret, raise. cbn [op_task].
    destruct t; destruct (tasksA_call _ w) as [[v|e] w1]; cbn;
      try reflexivity; now destruct (is_Exception e).
Qed.

Lemma run_task_runs_one_operation_witness :
  snd (@run_task quiet_tasks (Some "no such task") app_world) = app_world.
Proof.
  apply (proj1 (run_task_runs_one_operation quiet_tasks (Some "no such task") app_world)).
  reflexivity.
Defined.

(* ===================================================================== *)
(** * Further properties of [read_file] *)
(* ===================================================================== *)

Lemma contains_false_cons (old : string) (c : ascii) (s : string) :
  PyStr.contains old (String c s) = false ->
  String.prefix old (String c s) = false /\ PyStr.contains old s = false.
Proof. rewrite contains_unfold. apply orb_false_iff. Qed.

(** Without an occurrence of [old] the scan copies the text. *)
Lemma replace_scan_absent (old new s : string) :
  PyStr.contains old s = false -> PyStr.replace_scan old new s 0 = s.
Proof.
  induction s as [|c s IH]; intros H; [reflexivity|].
  apply contains_false_cons in H as [Hp Hc].
  cbn [PyStr.replace_scan]. now rewrite Hp, (IH Hc).
Qed.

(** The characters counted by [skip] are dropped. *)
Lemma replace_scan_skip (old new pre s : string) :
  PyStr.replace_scan old new (pre +:+ s) (String.length pre)
  = PyStr.replace_scan old new s 0.
Proof.
  induction pre as [|c pre IH]; [reflexivity|].
  rewrite append_cons. cbn [String.length PyStr.replace_scan]. exact IH.
Qed.

(** An occurrence at the start is replaced, and the scan goes on behind
    it. *)
Lemma replace_at_start (c : ascii) (old new rest : string) :
  PyStr.replace (String c old) new (String c old +:+ rest)
  = new +:+ PyStr.replace (String c old) new rest.
Proof.
  unfold PyStr.replace. rewrite append_cons.
  cbn [PyStr.replace_scan]. rewrite prefix_cons, Ascii.eqb_refl, prefix_app.
  cbn [andb String.length Nat.pred]. now rewrite replace_scan_skip.
Qed.

(** X9.  [read_file] opens its argument as it stands when the text [/data/]
    does not occur in it (so an absolute path elsewhere on the system),
    and opens [data/REST], relative to the working directory, for
    [/data/REST]: what is served for a path of the sandbox is what [open]
    gives for the relative path, not the file of that absolute path.
    When that [open] raises [FileNotFoundError] the answer is 404 with
    the requested path; any other [Exception] of it is answered 500. *)
Theorem read_file_opens_rewritten_path (w : World) :
  (forall path text,
      PyStr.contains "/data/" path = false ->
      open_read path w = (Return text, w) ->
      read_file path w = (Return (mkResponse text "text/plain"), w))
  /\ (forall rest text,
        PyStr.contains "/data/" rest = false ->
        open_read ("data/" +:+ rest) w = (Return text, w) ->
        read_file ("/data/" +:+ rest) w = (Return (mkResponse text "text/plain"), w))
  /\ (forall rest e,
        PyStr.contains "/data/" rest = false ->
        open_read ("data/" +:+ rest) w = (Raise e, w) ->
        is_FileNotFoundError e = true ->
        read_file ("/data/" +:+ rest) w
        = (Raise (HTTPException 404 ("File not found: /data/" +:+ rest)), w))
  /\ (forall rest e,
        PyStr.contains "/data/" rest = false ->
        open_read ("data/" +:+ rest) w = (Raise e, w) ->
        is_FileNotFoundError e = false ->
        is_Exception e = true ->
        read_file ("/data/" +:+ rest) w = (Raise (HTTPException 500 (exn_str e)), w)).
Proof.
  assert (Hid : forall path, PyStr.contains "/data/" path = false ->
                  PyStr.replace "/data/" "data/" path = path)
    by (intros path H; now apply replace_scan_absent).
  assert (Hrel : forall rest, PyStr.contains "/data/" rest = false ->
                   PyStr.replace "/data/" "data/" ("/data/" +:+ rest)
                   = "data/" +:+ rest).
  { intros rest H. rewrite (replace_at_start "/" "data/" "data/" rest).
    now rewrite (Hid rest H). }
  repeat split.
  - intros path text Habsent Hopen. unfold read_file.
    now rewrite (Hid path Habsent), Hopen.
  - intros rest text Habsent Hopen. unfold read_file.
    now rewrite (Hrel rest Habsent), Hopen.
  - intros rest e Habsent Hopen He. unfold read_file.
    now rewrite (Hrel rest Habsent), Hopen, He.
  - intros rest e Habsent Hopen He HE. unfold read_file.
    now rewrite (Hrel rest Habsent), Hopen, He, HE.
Qed.

Lemma read_file_opens_rewritten_path_witness :
  read_file "/data/notes.txt"
    (mkWorld (Some "/app")
       (<["data/notes.txt" := RegularFile "relative"]>
          (<["/data/notes.txt" := RegularFile "absolute"]> ∅)) [] [] [])
  = (Return (mkResponse "relative" "text/plain"),
     mkWorld (Some "/app")
       (<["data/notes.txt" := RegularFile "relative"]>
          (<["/data/notes.txt" := RegularFile "absolute"]> ∅)) [] [] [])
  /\ read_file "/data/a.txt/b.txt"
       (mkWorld (Some "/app") (<["data/a.txt" := RegularFile "a"]> ∅) [] [] [])
     = (Raise (HTTPException 500 "[Errno 20] Not a directory: 'data/a.txt/b.txt'"),
        mkWorld (Some "/app") (<["data/a.txt" := RegularFile "a"]> ∅) [] [] []).
Proof.
  split.
  - apply (proj1 (proj2 (read_file_opens_rewritten_path _)) "notes.txt" "relative");
      reflexivity.
  - apply (proj2 (proj2 (proj2 (read_file_opens_rewritten_path _))) "a.txt/b.txt"
             (OtherError "NotADirectoryError"
                "[Errno 20] Not a directory: 'data/a.txt/b.txt'"));
      reflexivity.
Defined.

(* ===================================================================== *)
(** * Further properties of [evaluate_B8] *)
(* ===================================================================== *)



(* ===================================================================== *)
(** * Further properties of [filter_csv] *)
(* ===================================================================== *)

(** X11.  [filter_csv] always answers: 403 for a path that [validate_path]
    refuses (the file is not read, the filters not looked at), and
    otherwise 200 with records, or 500 with the text of the [Exception]
    that reading or filtering raised.  Only an exception outside
    [Exception] leaves it. *)
Theorem filter_csv_always_answers (lib : Library) (data : payload) (w : World) :
  (validate_path (csv_path data) w = false ->
   filter_csv data w = Return (mkFlask (ErrorBody "Invalid path") 403))
  /\ (validate_path (csv_path data) w = true ->
      (exists records, filter_csv data w = Return (mkFlask (RecordsBody records) 200))
      \/ (exists e, is_Exception e = true
                    /\ filter_csv data w = Return (mkFlask (ErrorBody (exn_str e)) 500))
      \/ (exists e, is_Exception e = false /\ filter_csv data w = Raise e)).
Proof.
  unfold filter_csv, filter_csv_try. split; intros ->; cbn [negb]; [reflexivity|].
  destruct (read_csv (csv_path data) w) as [df|e].
  - destruct (apply_filters df _) as [df'|e].
    + left. now eexists.
    + destruct (is_Exception e) eqn:He; [right; left | right; right]; now exists e.
  - destruct (is_Exception e) eqn:He; [right; left | right; right]; now exists e.
Qed.

Lemma filter_csv_always_answers_witness :
  filter_csv (lib := test_library)
    (mkPayload "/etc/passwd" (Some [mkRule "name" (SStr "li") (Some "contains")]))
    app_world
  = Return (mkFlask (ErrorBody "Invalid path") 403).
Proof.
  apply (proj1 (filter_csv_always_answers test_library _ app_world)).
  reflexivity.
Defined.

Lemma apply_filter_unknown (lib : Library) (df : DataFrame) (rule : filter_rule) :
  known_operator rule = false -> apply_filter df rule = Return df.
Proof.
  unfold known_operator, apply_filter. destruct (operator rule) as [op|]; [|discriminate].
  intros H. repeat (apply orb_false_iff in H as [H ?]).
  now repeat match goal with Heq : String.eqb _ _ = false |- _ => rewrite Heq; clear Heq end.
Qed.

(** X12.  A rule whose operator is none of [==], [>], [<] and [contains] is
    passed over in silence: it selects nothing, raises nothing, and its
    column need not exist.  A request with such rules only is answered
    with the whole table. *)
Theorem filter_csv_ignores_unknown_operators
    (lib : Library) (path : string) (rules : list filter_rule) (w : World)
    (df : DataFrame) :
  validate_path path w = true ->
  read_csv path w = Return df ->
  List.forallb (fun rule => negb (known_operator rule)) rules = true ->
  filter_csv (mkPayload path (Some rules)) w
  = Return (mkFlask (RecordsBody (to_dict_records df)) 200).
Proof.
  intros Hpath Hread Hrules. unfold filter_csv, filter_csv_try.
  cbn [csv_path filters]. rewrite Hpath, Hread. cbn [negb].
  assert (Hsame : apply_filters df rules = Return df).
  { induction rules as [|rule rules IH]; [reflexivity|].
    cbn in Hrules. apply andb_true_iff in Hrules as [Hrule Hrules].
    apply negb_true_iff in Hrule.
    cbn [apply_filters]. rewrite (apply_filter_unknown lib df rule Hrule).
    now apply IH. }
  now rewrite Hsame.
Qed.

Lemma filter_csv_ignores_unknown_operators_witness :
  filter_csv (lib := test_library)
    (mkPayload "/data/test.csv" (Some [mkRule "no such column" (SInt 30) (Some "!=")]))
    app_world
  = Return (mkFlask (RecordsBody (to_dict_records test_frame)) 200).
Proof.
  apply (filter_csv_ignores_unknown_operators test_library "/data/test.csv" _
           app_world test_frame); reflexivity.
Defined.

Lemma select_rows_sublist (df : DataFrame) (mask : list bool) :
  columns (select_rows df mask) = columns df
  /\ rows (select_rows df mask) `sublist_of` rows df.
Proof.
  split; [reflexivity|]. unfold select_rows. cbn [rows].
  generalize (rows df). intros l. revert mask.
  induction l as [|row l IH]; intros mask; [destruct mask; constructor|].
  destruct mask as [|[|] mask]; cbn.
  - apply sublist_nil_l.
  - apply sublist_skip, IH.
  - apply sublist_cons, IH.
Qed.

Lemma apply_filter_sublist (lib : Library) (df df' : DataFrame) (rule : filter_rule) :
  apply_filter df rule = Return df' ->
  columns df' = columns df /\ rows df' `sublist_of` rows df.
Proof.
  assert (Hcmp : forall op, compare_and_select op df rule = Return df' ->
                   columns df' = columns df /\ rows df' `sublist_of` rows df).
  { intros op. unfold compare_and_select.
    destruct (get_series df (column rule)) as [[dt series]|e]; [|discriminate].
    destruct (compare op dt series (value rule)) as [mask|e]; [|discriminate].
    intros [= <-]. apply select_rows_sublist. }
  unfold apply_filter.
  destruct (String.eqb _ "=="); [apply Hcmp|].
  destruct (String.eqb _ ">"); [apply Hcmp|].
  destruct (String.eqb _ "<"); [apply Hcmp|].
  destruct (String.eqb _ "contains").
  - destruct (get_series df (column rule)) as [[dt series]|e]; [|discriminate].
    destruct (str_contains dt series _) as [mask|e]; [|discriminate].
    intros [= <-]. apply select_rows_sublist.
  - intros [= <-]. split; reflexivity.
Qed.

(** X13.  Filtering only removes rows.  Whatever the rules and whatever pandas
    computes for them, the records of a 200 answer are rows of the table
    that was read, in the order of the table, under the columns of the
    table. *)
Theorem filter_csv_only_removes_rows
    (lib : Library) (data : payload) (w : World) (df : DataFrame)
    (records : list (list (string * cell))) :
  read_csv (csv_path data) w = Return df ->
  filter_csv data w = Return (mkFlask (RecordsBody records) 200) ->
  exists kept,
    kept `sublist_of` rows df
    /\ records = to_dict_records (mkFrame (columns df) kept).
Proof.
  intros Hread. unfold filter_csv, filter_csv_try.
  destruct (negb _); [discriminate|]. rewrite Hread.
  set (rules := match filters data with Some l => l | None => [] end).
  assert (Hgen : forall rules df0 df', apply_filters df0 rules = Return df' ->
            columns df' = columns df0 /\ rows df' `sublist_of` rows df0).
  { induction rules0 as [|rule rules0 IH]; intros df0 df' H.
    - injection H as <-. split; reflexivity.
    - cbn in H. destruct (apply_filter df0 rule) as [df1|e] eqn:H1; [|discriminate].
      destruct (apply_filter_sublist lib _ _ _ H1) as [Hc1 Hs1].
      destruct (IH _ _ H) as [Hc Hs]. split; [congruence|].
      now transitivity (rows df1). }
  destruct (apply_filters df rules) as [df'|e] eqn:Hf.
  - intros [= <-]. destruct (Hgen _ _ _ Hf) as [Hc Hs].
    exists (rows df'). split; [exact Hs|].
    unfold to_dict_records. cbn [columns rows]. now rewrite Hc.
  - destruct (is_Exception e); discriminate.
Qed.

Lemma filter_csv_only_removes_rows_witness :
  exists kept,
    kept `sublist_of` rows test_frame
    /\ [ [("name", CStr "Alice"); ("age", CInt 25)];
         [("name", CStr "Charlie"); ("age", CInt 35)] ]
       = to_dict_records (mkFrame (columns test_frame) kept).
Proof.
  apply (filter_csv_only_removes_rows test_library
           (mkPayload "/data/test.csv" (Some [mkRule "name" (SStr "li") (Some "contains")]))
           app_world test_frame); reflexivity.
Defined.

Lemma filter_filter_and {A : Type} (f g : A -> bool) (l : list A) :
  List.filter g (List.filter f l) = List.filter (fun x => f x && g x) l.
Proof.
  induction l as [|x l IH]; [reflexivity|]. cbn.
  destruct (f x); cbn; [destruct (g x)|]; now rewrite IH.
Qed.

(** X14.  Two [contains] rules on text columns keep the rows that satisfy
    both, and their order in the request does not matter. *)
Theorem contains_rules_commute
    (lib : Library) (df : DataFrame) (col1 col2 : string) (v1 v2 : scalar)
    (i1 i2 : nat) :
  column_position col1 (columns df) = Some (i1, DObject) ->
  column_position col2 (columns df) = Some (i2, DObject) ->
  Regex.in_fragment (py_str v1) = true ->
  Regex.in_fragment (py_str v2) = true ->
  let rule1 := mkRule col1 v1 (Some "contains") in
  let rule2 := mkRule col2 v2 (Some "contains") in
  apply_filters df [rule1; rule2]
  = Return (mkFrame (columns df)
      (List.filter (fun row => cell_search (py_str v1) (nth i1 row CNaN)
                               && cell_search (py_str v2) (nth i2 row CNaN))
                   (rows df)))
  /\ apply_filters df [rule2; rule1] = apply_filters df [rule1; rule2].
Proof.
  intros H1 H2 F1 F2. cbn zeta. cbn [apply_filters].
  rewrite (apply_filter_contains lib df col1 v1 i1 H1 F1).
  rewrite (apply_filter_contains lib df col2 v2 i2 H2 F2).
  repeat match goal with
         | |- context [apply_filter ?d (mkRule col2 v2 _)] =>
             rewrite (apply_filter_contains lib d col2 v2 i2 H2 F2)
         | |- context [apply_filter ?d (mkRule col1 v1 _)] =>
             rewrite (apply_filter_contains lib d col1 v1 i1 H1 F1)
         end.
  cbn [columns rows]. rewrite !filter_filter_and. split; [reflexivity|].
  do 2 f_equal. apply filter_ext. intros row. apply andb_comm.
Qed.

Lemma contains_rules_commute_witness :
  apply_filters (lib := test_library) test_frame
    [mkRule "name" (SStr "l") (Some "contains"); mkRule "name" (SStr "A") (Some "contains")]
  = Return (mkFrame (columns test_frame)
      (List.filter (fun row => cell_search "l" (nth 0 row CNaN)
                               && cell_search "A" (nth 0 row CNaN))
                   (rows test_frame))).
Proof.
  apply (proj1 (contains_rules_commute test_library test_frame
                  "name" "name" (SStr "l") (SStr "A") 0 0
                  eq_refl eq_refl eq_refl eq_refl)).
Defined.

(** X15.  The failures of a [contains] rule: a column the table does not have
    is answered 500 with the [repr] of the name (the text of the
    [KeyError]: the name in single quotes, or in double quotes when it
    holds a single quote and no double one), a column that is not text
    500 with the complaint the [.str] accessor of the library raises for
    its type. *)
Theorem contains_rule_failures
    (lib : Library) (path col : string) (v : scalar) (w : World) (df : DataFrame) :
  validate_path path w = true ->
  read_csv path w = Return df ->
  let request := mkPayload path (Some [mkRule col v (Some "contains")]) in
  (column_position col (columns df) = None ->
   filter_csv request w = Return (mkFlask (ErrorBody (PyRepr.repr col)) 500))
  /\ (forall i dt,
        column_position col (columns df) = Some (i, dt) -> dt <> DObject ->
        filter_csv request w
        = Return (mkFlask (ErrorBody (str_accessor_complaint dt)) 500)).
Proof.
  intros Hpath Hread. cbn zeta. unfold filter_csv, filter_csv_try.
  cbn [csv_path filters]. rewrite Hpath, Hread.
  cbn [negb apply_filters]. unfold apply_filter, get_series, str_contains.
  cbn [operator column value String.eqb Ascii.eqb Bool.eqb]. split.
  - intros ->. reflexivity.
  - intros i dt -> Hdt. now destruct dt.
Qed.

Lemma contains_rule_failures_witness :
  filter_csv (lib := test_library)
    (mkPayload "/data/test.csv" (Some [mkRule "city" (SStr "3") (Some "contains")]))
    app_world
  = Return (mkFlask (ErrorBody "'city'") 500)
  /\ filter_csv (lib := test_library)
       (mkPayload "/data/test.csv" (Some [mkRule "it's" (SStr "3") (Some "contains")]))
       app_world
     = Return (mkFlask
         (ErrorBody (String PyRepr.double_quote
                       ("it's" +:+ String PyRepr.double_quote EmptyString))) 500)
  /\ filter_csv (lib := test_library)
       (mkPayload "/data/test.csv" (Some [mkRule "age" (SStr "3") (Some "contains")]))
       app_world
     = Return (mkFlask (ErrorBody (str_accessor_complaint (Library := test_library) DInt64)) 500).
Proof.
  split; [|split].
  - apply (proj1 (contains_rule_failures test_library "/data/test.csv" "city"
                    (SStr "3") app_world test_frame eq_refl eq_refl)).
    reflexivity.
  - apply (proj1 (contains_rule_failures test_library "/data/test.csv" "it's"
                    (SStr "3") app_world test_frame eq_refl eq_refl)).
    reflexivity.
  - apply (proj2 (contains_rule_failures test_library "/data/test.csv" "age"
                    (SStr "3") app_world test_frame eq_refl eq_refl) 1%nat DInt64).
    + reflexivity.
    + discriminate.
Defined.

(* ===================================================================== *)
(** * The sandbox predicate on absolute paths, by components *)
(* ===================================================================== *)

Lemma append_nil_r (s : string) : s +:+ "" = s.
Proof.
  induction s as [|c t IH]; [reflexivity | now rewrite append_cons, IH].
Qed.

Lemma concat_cons2 (sep x y : string) (l : list string) :
  String.concat sep (x :: y :: l) = x +:+ sep +:+ String.concat sep (y :: l).
Proof. reflexivity. Qed.

(** A text without the separator is a prefix of [x/...] exactly when it
    is a prefix of [x]. *)
Lemma prefix_before_sep (n x r : string) :
  PyStr.contains "/" n = false ->
  String.prefix n (x +:+ "/" +:+ r) = String.prefix n x.
Proof.
  revert x. induction n as [|c n IH]; intros x Hn; [now destruct x|].
  apply contains_false_cons in Hn as [Hc Hn].
  destruct x as [|d x].
  - rewrite append_nil_l, append_cons, prefix_cons.
    destruct (Ascii.eqb_spec c "/") as [->|]; [|reflexivity].
    rewrite prefix_cons in Hc. now destruct n.
  - rewrite append_cons, !prefix_cons. now rewrite (IH x Hn).
Qed.

Lemma prefix_data_join (comps : list string) :
  String.prefix "data" (PyStr.join "/" comps) = true <->
  exists first rest, comps = first :: rest /\ String.prefix "data" first = true.
Proof.
  unfold PyStr.join. destruct comps as [|x [|y l]].
  - split; [discriminate | intros (? & ? & [=] & _)].
  - split; [intros H; now exists x, [] | now intros (? & ? & [= <- _] & H)].
  - rewrite concat_cons2, (prefix_before_sep "data" x _ eq_refl).
    split; [intros H; now exists x, (y :: l) | now intros (? & ? & [= <- _] & H)].
Qed.

Lemma initial_slashes_absolute (p : string) :
  PosixPath.isabs p = true ->
  PosixPath.initial_slashes p = 1%nat \/ PosixPath.initial_slashes p = 2%nat.
Proof.
  unfold PosixPath.isabs, PosixPath.initial_slashes. intros ->.
  destruct (_ && _); [now right | now left].
Qed.

Lemma validate_path_absolute_components_iff (p : string) (w : World) :
  PosixPath.isabs p = true ->
  validate_path p w = true <->
  PosixPath.initial_slashes p = 1%nat
  /\ exists first rest,
       PosixPath.normpath_comps p = first :: rest
       /\ PyStr.startswith first "data" = true.
Proof.
  intros Habs.
  rewrite validate_path_true_iff, (abspath_absolute p w Habs).
  assert (Hne : String.eqb p "" = false) by now destruct p.
  unfold PosixPath.normpath. rewrite Hne. cbn zeta.
  unfold PyStr.startswith.
  destruct (initial_slashes_absolute p Habs) as [-> | ->]; cbn [PyStr.repeat].
  - rewrite append_nil_r.
    change (PosixPath.sep +:+ PyStr.join PosixPath.sep (PosixPath.normpath_comps p))
      with (String "/" (PyStr.join "/" (PosixPath.normpath_comps p))).
    cbn [String.eqb]. split.
    + intros (a & [= <-] & H).
      change "/data" with (String "/" "data") in H.
      rewrite prefix_cons in H. cbn [Ascii.eqb Bool.eqb andb] in H.
      split; [reflexivity|]. now apply prefix_data_join.
    + intros (_ & H). apply prefix_data_join in H. eexists. split; [reflexivity|].
      change "/data" with (String "/" "data").
      rewrite prefix_cons. exact H.
  - rewrite append_nil_r.
    change ((PosixPath.sep +:+ PosixPath.sep)
            +:+ PyStr.join PosixPath.sep (PosixPath.normpath_comps p))
      with (String "/" (String "/" (PyStr.join "/" (PosixPath.normpath_comps p)))).
    cbn [String.eqb]. split.
    + intros (a & [= <-] & H). cbn in H. discriminate.
    + intros ([=] & _).
Qed.

(** X2.  An absolute path is accepted exactly when it begins with one slash
    (or with three or more, which count as one; with exactly two it is
    refused) and the first of its components, once [.], [..] and empty
    components are resolved, begins with [data].  The components that are
    left hold no [.], [..] or empty component: a traversal never takes an
    accepted path out of that first component. *)
Theorem validate_path_absolute_by_components (p : string) (w : World) :
  PosixPath.isabs p = true ->
  Forall plain_component (PosixPath.normpath_comps p)
  /\ (validate_path p w = true <->
      PosixPath.initial_slashes p = 1%nat
      /\ exists first rest,
           PosixPath.normpath_comps p = first :: rest
           /\ PyStr.startswith first "data" = true).
Proof.
  intros Habs. split; [now apply normpath_comps_plain|].
  now apply validate_path_absolute_components_iff.
Qed.

Lemma validate_path_absolute_by_components_witness :
  validate_path "///data/logs/../docs/./a.txt" app_world = true.
Proof.
  apply (proj2 (validate_path_absolute_by_components
                  "///data/logs/../docs/./a.txt" app_world eq_refl)).
  split; [reflexivity|]. now exists "data", ["docs"; "a.txt"].
Defined.

(** Two leading slashes: the same file as [/data/x] on Linux, refused. *)
Lemma validate_path_double_slash (w : World) : validate_path "//data/x" w = false.
Proof. reflexivity. Qed.

(* ===================================================================== *)
(** * [ensure_data_dir] *)
(* ===================================================================== *)

(** The data directories, added to a store. *)
Lemma makedirs_rec_leaf (fuel : nat) (name : string) (exist_ok : bool) (w : World)
    (head tail : string) :
  (let (h, t) := Os.split name in
   if String.eqb t "" then Os.split h else (h, t)) = (head, tail) ->
  negb (String.eqb head "") && negb (String.eqb tail "")
  && negb (Os.path_exists head w) = false ->
  Os.makedirs_rec (S fuel) name exist_ok w = Os.mkdir_leaf name exist_ok w.
Proof.
  intros Hsplit Hcond. cbn [Os.makedirs_rec].
  destruct (Os.split name) as [h t].
  destruct (if String.eqb t "" then Os.split h else (h, t)) as [h' t'].
  injection Hsplit as -> ->. now rewrite Hcond.
Qed.

(** [mkdir] with [exist_ok] below an existing directory: a free path is
    made a directory, a directory is left alone, anything else is in the
    way. *)
Lemma mkdir_leaf_exist_ok (name : string) (w : World) :
  String.eqb name "" = false ->
  has_nul name = false ->
  unreachable name w = false ->
  below_file (files w) name = false ->
  (String.eqb (Os.dirname name) "" || Os.all_sep (Os.dirname name) = true
   \/ files w !! Os.dirname name = Some Directory) ->
  Os.mkdir_leaf name true w
  = match files w !! name with
    | None => (Return tt, Os.with_files (<[name := Directory]> (files w)) w)
    | Some Directory => (Return tt, w)
    | Some _ =>
        (Raise (Os.FileExistsError ("[Errno 17] File exists: " +:+ PyRepr.repr name)), w)
    end.
Proof.
  intros Hname Hnul Hreach Hbelow Hparent.
  unfold Os.mkdir_leaf, Os.mkdir, Os.isdir, Os.reachable.
  rewrite Hname, Hnul, Hreach, Hbelow.
  destruct (files w !! name) as [[c| | |c]|] eqn:Hlook; cbn;
    rewrite ?Hlook, ?Hreach, ?Hbelow; try reflexivity.
  destruct Hparent as [Hp | Hp]; rewrite Hp; [reflexivity|].
  now destruct (_ || _).
Qed.

(** A relative path is within reach where the process has a working
    directory. *)
Lemma reachable_with_cwd (p d : string) (w : World) :
  cwd w = Some d -> unreachable p w = false.
Proof. intros H. unfold unreachable. rewrite H. apply andb_false_r. Qed.

Lemma makedirs_data (d : string) (w : World) :
  cwd w = Some d ->
  Os.makedirs "data" true w
  = match files w !! "data" with
    | None => (Return tt, Os.with_files (<["data" := Directory]> (files w)) w)
    | Some Directory => (Return tt, w)
    | Some _ =>
        (Raise (Os.FileExistsError ("[Errno 17] File exists: " +:+ PyRepr.repr "data")), w)
    end.
Proof.
  intros Hcwd. unfold Os.makedirs.
  rewrite (makedirs_rec_leaf _ "data" true w "" "data" eq_refl eq_refl).
  rewrite (mkdir_leaf_exist_ok "data" w eq_refl eq_refl
             (reachable_with_cwd _ _ _ Hcwd) eq_refl);
    [reflexivity | now left].
Qed.

(** Without a working directory nothing relative can be made. *)
Lemma makedirs_data_no_cwd (w : World) :
  cwd w = None ->
  Os.makedirs "data" true w
  = (Raise (FileNotFoundError
              ("[Errno 2] No such file or directory: " +:+ PyRepr.repr "data")), w).
Proof.
  intros Hcwd. unfold Os.makedirs.
  rewrite (makedirs_rec_leaf _ "data" true w "" "data" eq_refl eq_refl).
  unfold Os.mkdir_leaf, Os.mkdir, Os.isdir, Os.reachable, unreachable.
  rewrite Hcwd.
  change (String.eqb "data" "") with false.
  change (has_nul "data") with false.
  change (PosixPath.isabs "data") with false.
  cbn [negb andb orb Os.is_OSError]. rewrite Hcwd. reflexivity.
Qed.

Lemma makedirs_below_data (d child : string) (w : World) :
  cwd w = Some d ->
  child = "data/docs" \/ child = "data/logs" ->
  files w !! "data" = Some Directory ->
  Os.makedirs child true w
  = match files w !! child with
    | None => (Return tt, Os.with_files (<[child := Directory]> (files w)) w)
    | Some Directory => (Return tt, w)
    | Some _ =>
        (Raise (Os.FileExistsError ("[Errno 17] File exists: " +:+ PyRepr.repr child)), w)
    end.
Proof.
  intros Hcwd Hchild Hdata. unfold Os.makedirs.
  assert (Hex : Os.path_exists "data" w = true).
  { unfold Os.path_exists, Os.reachable.
    now rewrite Hdata, (reachable_with_cwd _ _ _ Hcwd). }
  destruct Hchild as [-> | ->].
  - rewrite (makedirs_rec_leaf _ "data/docs" true w "data" "docs" eq_refl);
      [|now rewrite Hex].
    apply mkdir_leaf_exist_ok;
      [reflexivity | reflexivity | exact (reachable_with_cwd _ _ _ Hcwd) | | now right].
    change (is_file_node (files w !! "data") || false = false). now rewrite Hdata.
  - rewrite (makedirs_rec_leaf _ "data/logs" true w "data" "logs" eq_refl);
      [|now rewrite Hex].
    apply mkdir_leaf_exist_ok;
      [reflexivity | reflexivity | exact (reachable_with_cwd _ _ _ Hcwd) | | now right].
    change (is_file_node (files w !! "data") || false = false). now rewrite Hdata.
Qed.

Lemma with_files_id (w : World) : Os.with_files (files w) w = w.
Proof. now destruct w. Qed.

Lemma with_files_twice (f g : gmap string file_node) (w : World) :
  Os.with_files f (Os.with_files g w) = Os.with_files f w.
Proof. reflexivity. Qed.

Lemma free_or_directory_insert (w : World) (p : string) :
  free_or_directory w p = true ->
  match files w !! p with
  | None => (Return tt, Os.with_files (<[p := Directory]> (files w)) w)
  | Some Directory => (Return tt, w)
  | Some _ =>
      (Raise (Os.FileExistsError ("[Errno 17] File exists: " +:+ PyRepr.repr p)), w)
  end
  = (Return tt, Os.with_files (<[p := Directory]> (files w)) w).
Proof.
  unfold free_or_directory.
  destruct (files w !! p) as [[c| | |c]|] eqn:Hlook; try discriminate; [|reflexivity].
  intros _. now rewrite (insert_id _ _ _ Hlook), with_files_id.
Qed.

Lemma blocked_raises (w : World) (p : string) :
  free_or_directory w p = false ->
  match files w !! p with
  | None => (Return tt, Os.with_files (<[p := Directory]> (files w)) w)
  | Some Directory => (Return tt, w)
  | Some _ =>
      (Raise (Os.FileExistsError ("[Errno 17] File exists: " +:+ PyRepr.repr p)), w)
  end
  = (Raise (Os.FileExistsError ("[Errno 17] File exists: " +:+ PyRepr.repr p)), w).
Proof.
  unfold free_or_directory. now destruct (files w !! p) as [[c| | |c]|].
Qed.

(** [ensure_data_dir] by cases, for a process with a working directory:
    with nothing in the way it adds the three directories to the store
    and touches nothing else; with a file in the way it raises
    [FileExistsError]. *)
Lemma ensure_data_dir_cases (d : string) (w : World) :
  cwd w = Some d ->
  (List.forallb (free_or_directory w) data_dirs = true
   /\ ensure_data_dir w = (Return tt, Os.with_files (with_data_dirs (files w)) w))
  \/ (List.forallb (free_or_directory w) data_dirs = false
      /\ exists msg w', ensure_data_dir w = (Raise (Os.FileExistsError msg), w')).
Proof.
  intros Hcwd.
  unfold ensure_data_dir, for_each, bind, ret, data_dirs, with_data_dirs.
  cbn [List.forallb]. rewrite (makedirs_data d w Hcwd).
  destruct (free_or_directory w "data") eqn:H1;
    [|right; split; [reflexivity|]; rewrite (blocked_raises w _ H1); now eexists _, _].
  rewrite (free_or_directory_insert w _ H1).
  set (w1 := Os.with_files (<["data" := Directory]> (files w)) w).
  assert (Hd1 : files w1 !! "data" = Some Directory) by apply lookup_insert_eq.
  assert (F12 : free_or_directory w1 "data/docs" = free_or_directory w "data/docs").
  { unfold free_or_directory, w1. cbn [files Os.with_files].
    now rewrite lookup_insert_ne. }
  rewrite (makedirs_below_data d "data/docs" w1 Hcwd (or_introl eq_refl) Hd1).
  destruct (free_or_directory w "data/docs") eqn:H2;
    [|right; split; [reflexivity|]; rewrite (blocked_raises w1 _ F12); now eexists _, _].
  rewrite (free_or_directory_insert w1 _ F12).
  set (w2 := Os.with_files (<["data/docs" := Directory]> (files w1)) w1).
  assert (Hd2 : files w2 !! "data" = Some Directory).
  { unfold w2. cbn [files Os.with_files]. now rewrite lookup_insert_ne. }
  assert (F23 : free_or_directory w2 "data/logs" = free_or_directory w "data/logs").
  { unfold free_or_directory, w2, w1. cbn [files Os.with_files].
    now rewrite !lookup_insert_ne. }
  rewrite (makedirs_below_data d "data/logs" w2 Hcwd (or_intror eq_refl) Hd2).
  destruct (free_or_directory w "data/logs") eqn:H3;
    [|right; split; [reflexivity|]; rewrite (blocked_raises w2 _ F23); now eexists _, _].
  rewrite (free_or_directory_insert w2 _ F23).
  left. split; reflexivity.
Qed.

(** Without a working directory [ensure_data_dir] fails at its first
    directory. *)
Lemma ensure_data_dir_no_cwd (w : World) :
  cwd w = None -> exists msg, ensure_data_dir w = (Raise (FileNotFoundError msg), w).
Proof.
  intros Hcwd. unfold ensure_data_dir, for_each, bind.
  rewrite (makedirs_data_no_cwd w Hcwd). now eexists.
Qed.

Lemma with_data_dirs_lookup (store : gmap string file_node) (p : string) :
  with_data_dirs store !! p
  = if List.existsb (String.eqb p) data_dirs then Some Directory else store !! p.
Proof.
  unfold with_data_dirs, data_dirs. cbn [List.existsb].
  destruct (String.eqb_spec p "data") as [->|N1].
  { rewrite lookup_insert_ne by discriminate.
    rewrite lookup_insert_ne by discriminate. now rewrite lookup_insert_eq. }
  destruct (String.eqb_spec p "data/docs") as [->|N2].
  { rewrite lookup_insert_ne by discriminate. now rewrite lookup_insert_eq. }
  destruct (String.eqb_spec p "data/logs") as [->|N3].
  { now rewrite lookup_insert_eq. }
  cbn [orb]. now rewrite !lookup_insert_ne.
Qed.

(** X16.  After [ensure_data_dir] has returned, [data], [data/docs] and
    [data/logs] are directories, every other path of the store is as it
    was, and nothing but the store has changed. *)
Theorem ensure_data_dir_creates (w w' : World) :
  ensure_data_dir w = (Return tt, w') ->
  (forall d, In d data_dirs -> files w' !! d = Some Directory)
  /\ (forall p, ~ In p data_dirs -> files w' !! p = files w !! p)
  /\ files w ⊆ files w'
  /\ w' = Os.with_files (files w') w.
Proof.
  intros Hrun. destruct (cwd w) as [here|] eqn:Hcwd;
    [|destruct (ensure_data_dir_no_cwd w Hcwd) as [m Heq]; rewrite Heq in Hrun;
      discriminate].
  destruct (ensure_data_dir_cases here w Hcwd) as [[Hfree Heq]|[_ (m & w'' & Heq)]];
    rewrite Heq in Hrun; [|discriminate].
  injection Hrun as <-. cbn [files Os.with_files]. repeat split.
  - intros d Hd. rewrite with_data_dirs_lookup.
    destruct (List.existsb _ _) eqn:Hex; [reflexivity|].
    exfalso. apply Bool.not_true_iff_false in Hex. apply Hex.
    apply existsb_exists. exists d. split; [exact Hd | apply String.eqb_refl].
  - intros p Hp. rewrite with_data_dirs_lookup.
    destruct (List.existsb _ _) eqn:Hex; [|reflexivity].
    apply existsb_exists in Hex as (d & Hd & Heqb).
    apply String.eqb_eq in Heqb. now subst.
  - apply map_subseteq_spec. intros p node Hnode. rewrite with_data_dirs_lookup.
    destruct (List.existsb _ _) eqn:Hex; [|exact Hnode].
    apply existsb_exists in Hex as (d & Hd & Heqb).
    apply String.eqb_eq in Heqb. subst d.
    assert (Hf : free_or_directory w p = true)
      by (eapply forallb_forall in Hfree; eauto).
    unfold free_or_directory in Hf. rewrite Hnode in Hf. now destruct node.
Qed.

Lemma ensure_data_dir_creates_witness :
  (forall d, In d data_dirs ->
             files (snd (ensure_data_dir app_world)) !! d = Some Directory)
  /\ (forall p, ~ In p data_dirs ->
                files (snd (ensure_data_dir app_world)) !! p = files app_world !! p)
  /\ files app_world ⊆ files (snd (ensure_data_dir app_world))
  /\ snd (ensure_data_dir app_world)
     = Os.with_files (files (snd (ensure_data_dir app_world))) app_world.
Proof.
  apply (ensure_data_dir_creates app_world). reflexivity.
Defined.

(** X17.  Running [ensure_data_dir] again changes nothing: where it has
    returned once, it returns again and leaves the world as it is. *)
Theorem ensure_data_dir_idempotent (w w' : World) :
  ensure_data_dir w = (Return tt, w') ->
  ensure_data_dir w' = (Return tt, w').
Proof.
  intros Hrun. destruct (cwd w) as [here|] eqn:Hcwd;
    [|destruct (ensure_data_dir_no_cwd w Hcwd) as [m Heq]; rewrite Heq in Hrun;
      discriminate].
  destruct (ensure_data_dir_cases here w Hcwd) as [[Hfree Heq]|[_ (m & w'' & Heq)]];
    rewrite Heq in Hrun; [|discriminate].
  injection Hrun as <-.
  set (w1 := Os.with_files (with_data_dirs (files w)) w).
  assert (Hdirs : forall d, In d data_dirs -> files w1 !! d = Some Directory).
  { intros d Hd. unfold w1. cbn [files Os.with_files]. rewrite with_data_dirs_lookup.
    destruct (List.existsb _ _) eqn:Hex; [reflexivity|].
    exfalso. apply Bool.not_true_iff_false in Hex. apply Hex.
    apply existsb_exists. exists d. split; [exact Hd | apply String.eqb_refl]. }
  destruct (ensure_data_dir_cases here w1 Hcwd) as [[_ Heq1]|[Hblocked _]].
  - rewrite Heq1. f_equal.
    assert (Hsame : with_data_dirs (files w1) = files w1).
    { unfold with_data_dirs.
      rewrite (insert_id (files w1) "data") by (apply Hdirs; cbn; auto).
      rewrite (insert_id (files w1) "data/docs") by (apply Hdirs; cbn; auto).
      apply insert_id, Hdirs. cbn; auto. }
    rewrite Hsame. apply with_files_id.
  - exfalso. apply Bool.not_true_iff_false in Hblocked. apply Hblocked.
    apply forallb_forall. intros d Hd. unfold free_or_directory.
    now rewrite (Hdirs d Hd).
Qed.

Lemma ensure_data_dir_idempotent_witness :
  ensure_data_dir (snd (ensure_data_dir app_world))
  = (Return tt, snd (ensure_data_dir app_world)).
Proof.
  apply (ensure_data_dir_idempotent app_world). reflexivity.
Defined.

(* ===================================================================== *)
(** * The other handlers: failures stay inside *)
(* ===================================================================== *)










(* ===================================================================== *)
(** * Optional arguments of [git_operations] and [process_image] *)
(* ===================================================================== *)

Lemma falsy_not_offending (w : World) (v : pyval) :
  py_truthy v = false -> ~ offending w v.
Proof.
  intros Hv (s & -> & Hsep & _). cbn in Hv. apply negb_false_iff in Hv.
  apply String.eqb_eq in Hv. subst s. discriminate.
Qed.

(** Arguments that do not offend can be left out of the scan. *)
Lemma check_arguments_drop (before middle rest : list pyval) (w : World) :
  (forall a, In a middle -> ~ offending w a) ->
  check_arguments (before ++ middle ++ rest) w = check_arguments (before ++ rest) w.
Proof.
  intros Hmid. induction before as [|a before IH].
  - cbn [app]. exact (check_arguments_skip middle rest w Hmid).
  - cbn [app]. rewrite !check_arguments_cons, IH. reflexivity.
Qed.

(** X21.  A commit message that is empty, [None], or any other falsy value is
    the same as no commit message: nothing is added, nothing committed,
    and the call still returns [True] when the clone or the opening of the
    repository succeeds. *)
Theorem git_operations_falsy_message
    (lib : Libraries) (repo_url local_path commit_message : pyval) (w : World) :
  py_truthy commit_message = false ->
  fn_call git_operations [repo_url; local_path; commit_message] [] w
  = fn_call git_operations [repo_url; local_path] [] w
  /\ fn_call git_operations [repo_url; local_path] [("commit_message", commit_message)] w
     = fn_call git_operations [repo_url; local_path] [] w.
Proof.
  intros Hm. unfold git_operations. rewrite !security_check_call.
  assert (Hscan : check_arguments ([repo_url; local_path] ++ [commit_message] ++ []) w
                  = check_arguments ([repo_url; local_path] ++ []) w).
  { apply check_arguments_drop. intros a [<-|[]]. now apply falsy_not_offending. }
  cbn [app map snd] in *. rewrite Hscan.
  destruct (check_arguments [repo_url; local_path] w) as [[[]|e] w1]; [|now split].
  cbn [handler_def fn_call bind_defaults kw_lookup kw_remove List.find List.filter
       option_map fst snd String.eqb Ascii.eqb Bool.eqb negb].
  unfold git_operations_try. rewrite Hm. now split.
Qed.

Lemma git_operations_falsy_message_witness :
  fn_call (@git_operations recording_libraries)
          [PStr "repo.git"; PStr "/data/repo"; PStr ""] [] data_world
  = fn_call (@git_operations recording_libraries)
            [PStr "repo.git"; PStr "/data/repo"] [] data_world.
Proof.
  apply (proj1 (git_operations_falsy_message recording_libraries
                  (PStr "repo.git") (PStr "/data/repo") (PStr "") data_world eq_refl)).
Defined.

(** X22.  For [process_image], a falsy [resize] (such as [None] or [()]) means
    no resizing and a falsy [format] (such as [None] or [""]) means the
    format of the image itself: the call is the one that leaves both
    out. *)
Theorem process_image_falsy_options
    (lib : Libraries) (image_path output_path resize format quality : pyval)
    (w : World) :
  py_truthy resize = false ->
  py_truthy format = false ->
  fn_call process_image [image_path; output_path; resize; format; quality] [] w
  = fn_call process_image [image_path; output_path] [("quality", quality)] w.
Proof.
  intros Hr Hf. unfold process_image. rewrite !security_check_call.
  assert (Hscan : check_arguments
                    ([image_path; output_path] ++ [resize; format] ++ [quality]) w
                  = check_arguments ([image_path; output_path] ++ [quality]) w).
  { apply check_arguments_drop. intros a [<-|[<-|[]]]; now apply falsy_not_offending. }
  cbn [app map snd] in *. rewrite Hscan.
  destruct (check_arguments [image_path; output_path; quality] w) as [[[]|e] w1];
    [|reflexivity].
  cbn [handler_def fn_call bind_defaults kw_lookup kw_remove List.find List.filter
       option_map fst snd String.eqb Ascii.eqb Bool.eqb negb].
  unfold process_image_try. now rewrite Hr, Hf.
Qed.

Lemma process_image_falsy_options_witness :
  fn_call (@process_image recording_libraries)
          [PStr "/data/in.jpg"; PStr "/data/out.jpg"; PTuple []; PStr ""; PInt 60] []
          data_world
  = fn_call (@process_image recording_libraries)
            [PStr "/data/in.jpg"; PStr "/data/out.jpg"] [("quality", PInt 60)] data_world.
Proof.
  apply (process_image_falsy_options recording_libraries); reflexivity.
Defined.

(* ===================================================================== *)
(** * [fetch_api_data], line by line *)
(* ===================================================================== *)








(* ===================================================================== *)
(** * The sandbox predicate on relative paths *)
(* ===================================================================== *)

Lemma split_nonempty (s : string) : PyStr.split "/" s <> [].
Proof.
  destruct s as [|c s]; [discriminate|]. cbn [PyStr.split].
  destruct (Ascii.eqb c "/"); [discriminate|].
  destruct (PyStr.split "/" s); discriminate.
Qed.

(** Splitting [a/b] gives the fields of [a], then the fields of [b]. *)
Lemma split_app_sep (a b : string) :
  PyStr.split "/" (a +:+ String "/" b) = PyStr.split "/" a ++ PyStr.split "/" b.
Proof.
  induction a as [|c a IH]; [reflexivity|].
  rewrite append_cons. cbn [PyStr.split]. rewrite IH.
  destruct (Ascii.eqb c "/"); [reflexivity|].
  pose proof (split_nonempty a) as Hne.
  destruct (PyStr.split "/" a) as [|h t]; [congruence | reflexivity].
Qed.

(** A component other than [..] leaves the first kept component in
    place. *)
Lemma normpath_step_keeps_head (slashes : nat) (h comp : string) (t : list string) :
  comp <> ".." ->
  exists t', PosixPath.normpath_step slashes (h :: t) comp = h :: t'.
Proof.
  intros Hne. unfold PosixPath.normpath_step.
  destruct (String.eqb comp "" || String.eqb comp "."); [now exists t|].
  apply String.eqb_neq in Hne. rewrite Hne. cbn [negb orb].
  now exists (t ++ [comp]).
Qed.

Lemma normpath_fold_keeps_head (slashes : nat) (comps : list string) (h : string)
    (t : list string) :
  Forall (fun comp => comp <> "..") comps ->
  exists t', List.fold_left (PosixPath.normpath_step slashes) comps (h :: t) = h :: t'.
Proof.
  intros Hall. revert t. induction Hall as [|comp comps Hc _ IH]; intros t.
  - now exists t.
  - cbn [List.fold_left].
    destruct (normpath_step_keeps_head slashes h comp t Hc) as [t1 ->]. apply IH.
Qed.

(** The working directory, spelled as [getcwd] gives it: absolute, with
    one leading slash and no trailing one. *)
Lemma cwd_shape (d : string) :
  PosixPath.isabs d = true ->
  PyStr.endswith d "/" = false ->
  PyStr.startswith d "//" = false ->
  exists c rest, d = String "/" (String c rest) /\ c <> "/"%char.
Proof.
  intros Habs Hend Hdouble. destruct d as [|x d]; [discriminate|].
  unfold PosixPath.isabs, PyStr.startswith in Habs.
  change PosixPath.sep with (String "/" "") in Habs.
  rewrite prefix_cons in Habs. apply andb_true_iff in Habs as [Hx _].
  apply Ascii.eqb_eq in Hx. subst x.
  destruct d as [|c rest]; [discriminate|].
  exists c, rest. split; [reflexivity|]. intros ->.
  unfold PyStr.startswith in Hdouble.
  change "//" with (String "/" (String "/" "")) in Hdouble.
  rewrite !prefix_cons in Hdouble. now destruct rest.
Qed.

(** X3.  From a working directory that is not the root, a relative path
    without [..] component is accepted exactly when the first component
    of the working directory begins with [data]: every such path (every
    URL too) is accepted when the process runs in [/data], and refused
    when it runs in a directory such as [/app]. *)
Theorem validate_path_relative_follows_cwd
    (p d first : string) (others : list string) (w : World) :
  cwd w = Some d ->
  PosixPath.isabs d = true ->
  PyStr.endswith d "/" = false ->
  PyStr.startswith d "//" = false ->
  PosixPath.normpath_comps d = first :: others ->
  PosixPath.isabs p = false ->
  Forall (fun comp => comp <> "..") (PyStr.split "/" p) ->
  validate_path p w = PyStr.startswith first "data".
Proof.
  intros Hcwd Habs Hend Hdouble Hcomps Hrel Hplain.
  destruct (cwd_shape d Habs Hend Hdouble) as (c & rest & Hd & Hc).
  set (full := d +:+ String "/" p).
  assert (Hjoin : PosixPath.join d p = full).
  { unfold PosixPath.join. unfold PosixPath.isabs in Hrel.
    change PosixPath.sep with "/" in *. rewrite Hrel, Hend.
    subst d. reflexivity. }
  assert (Hfull_abs : PosixPath.isabs full = true) by (unfold full; now subst d).
  assert (Hsl_d : PosixPath.initial_slashes d = 1%nat).
  { unfold PosixPath.initial_slashes. unfold PosixPath.isabs in Habs.
    rewrite Habs. change (PyStr.repeat PosixPath.sep 2) with "//".
    now rewrite Hdouble. }
  assert (Hsl_full : PosixPath.initial_slashes full = 1%nat).
  { unfold full. subst d. unfold PosixPath.initial_slashes, PyStr.startswith.
    rewrite !append_cons. cbn [PyStr.repeat]. 
    change (PosixPath.sep +:+ PosixPath.sep +:+ "") with (String "/" (String "/" "")).
    change PosixPath.sep with (String "/" "").
    rewrite !prefix_cons. apply Ascii.eqb_neq in Hc.
    rewrite Ascii.eqb_sym in Hc. now rewrite Hc. }
  assert (Hfull_comps : exists others',
            PosixPath.normpath_comps full = first :: others').
  { unfold PosixPath.normpath_comps in *. rewrite Hsl_full. unfold full.
    rewrite Hsl_d in Hcomps. change PosixPath.sep_char with "/"%char in *.
    rewrite split_app_sep, fold_left_app, Hcomps.
    now apply normpath_fold_keeps_head. }
  destruct Hfull_comps as [others' Hfull_comps].
  assert (Hsame : validate_path p w = validate_path full w).
  { unfold validate_path, validate_path_try, PosixPath.abspath.
    rewrite Hrel, Hfull_abs, Hcwd, Hjoin. reflexivity. }
  rewrite Hsame.
  destruct (validate_path_absolute_components_iff full w Hfull_abs) as [Hto Hfrom].
  destruct (PyStr.startswith first "data") eqn:Hfirst.
  - apply Hfrom. split; [exact Hsl_full|]. now exists first, others'.
  - destruct (validate_path full w) eqn:Hv; [|reflexivity].
    destruct (Hto eq_refl) as (_ & f & o & Hf & Hs).
    rewrite Hfull_comps in Hf. injection Hf as <- _. congruence.
Qed.

Lemma validate_path_relative_follows_cwd_witness :
  validate_path "https://jsonplaceholder.typicode.com/todos/1" app_world = false
  /\ validate_path "https://jsonplaceholder.typicode.com/todos/1" data_world = true.
Proof.
  assert (Hplain : Forall (fun comp => comp <> "..")
                     (PyStr.split "/" "https://jsonplaceholder.typicode.com/todos/1")).
  { change (Forall (fun comp => comp <> "..")
              ["https:"; ""; "jsonplaceholder.typicode.com"; "todos"; "1"]).
    repeat (constructor; [apply String.eqb_neq; reflexivity|]). constructor. }
  split.
  - exact (validate_path_relative_follows_cwd
             "https://jsonplaceholder.typicode.com/todos/1" "/app" "app" [] app_world
             eq_refl eq_refl eq_refl eq_refl eq_refl eq_refl Hplain).
  - exact (validate_path_relative_follows_cwd
             "https://jsonplaceholder.typicode.com/todos/1" "/data" "data" [] data_world
             eq_refl eq_refl eq_refl eq_refl eq_refl eq_refl Hplain).
Defined.
